(** * fb_ads_library_api: the Ad Library pagination client

    A shallow embedding of [src/python/fb_ads_library_api.py]:
    the helper [get_ad_archive_id] and the generator
    [FbAdsLibraryTraversal._get_ad_archives_from_url] with its two entry
    points, followed by the properties of the traversal loop, of the
    delivery-date filter and of the id extraction.

    Conventions of the embedding.
    - A Python [str] is a [string]; its characters are the code points
      below 256, on which the regular-expression class [\d] of a [str]
      pattern is exactly [[0-9]].
    - A value decoded by [json.loads] is a [json]; a JSON object keeps its
      entries in insertion order, as a Python [dict] does.
    - A Python computation that may raise is a [result]: [Ok v] or
      [Raise e].
    - The generator is a state machine: one pass through the body of the
      [while] loop is [loop_body], and [run] drives it, logging every call
      of [requests.get] and every [yield].
    - The constructor and [generate_ad_archives], which only format the
      first URL and pass the stored parameters on, are left out. *)

From Stdlib Require Import ZArith List String Ascii Bool Lia DecimalString.
Import ListNotations.
Open Scope string_scope.
Open Scope Z_scope.

Set Implicit Arguments.

(** ** Exceptions and the error monad *)

(** The exceptions this module can let escape.  [Exception msg] is the
    [raise Exception(...)] of the retry branch; the others are raised by
    the interpreter or by the libraries the module calls. *)
Inductive exn : Type :=
| TypeError
| KeyError (key : string)
| ValueError
| AttributeError
| RequestError
| Exception (msg : string).

Inductive result (A : Type) : Type :=
| Ok (a : A)
| Raise (e : exn).
Arguments Ok {A} a.
Arguments Raise {A} e.

Definition bind {A B : Type} (r : result A) (k : A -> result B) : result B :=
  match r with
  | Ok a => k a
  | Raise e => Raise e
  end.

Notation "x <- r ;; k" := (bind r (fun x => k))
  (at level 61, r at next level, right associativity).

(** ** Decoded JSON values *)

Local Unset Elimination Schemes.
Inductive json : Type :=
| JNull
| JBool (b : bool)
| JNum (n : Z)
| JStr (s : string)
| JArr (items : list json)
| JObj (entries : list (string * json)).
Local Set Elimination Schemes.

(** Numbers: this module never looks inside a number, so only integers
    are represented. *)

Fixpoint lookup (k : string) (entries : list (string * json)) : option json :=
  match entries with
  | [] => None
  | (k', v) :: rest => if String.eqb k k' then Some v else lookup k rest
  end.

(** What is left of [s] after its prefix [p], when [s] starts with [p]. *)
Fixpoint strip_prefix (p s : string) : option string :=
  match p, s with
  | EmptyString, _ => Some s
  | String a p', String b s' => if Ascii.eqb a b then strip_prefix p' s' else None
  | String _ _, EmptyString => None
  end.

(** [sub in s] on two strings. *)
Fixpoint is_substring (sub s : string) : bool :=
  match strip_prefix sub s with
  | Some _ => true
  | None =>
      match s with
      | EmptyString => false
      | String _ rest => is_substring sub rest
      end
  end.

Definition is_str (k : string) (v : json) : bool :=
  match v with
  | JStr s => String.eqb k s
  | _ => false
  end.

(** [k in x] for a string [k]: key test on a dict, element test on a
    list, substring test on a str, [TypeError] on anything else. *)
Definition py_contains (k : string) (x : json) : result bool :=
  match x with
  | JObj entries => Ok (match lookup k entries with Some _ => true | None => false end)
  | JArr items => Ok (existsb (is_str k) items)
  | JStr s => Ok (is_substring k s)
  | JNull | JBool _ | JNum _ => Raise TypeError
  end.

(** [x[k]] for a string [k]: only a dict can be indexed by a string. *)
Definition py_getitem (x : json) (k : string) : result json :=
  match x with
  | JObj entries =>
      match lookup k entries with
      | Some v => Ok v
      | None => Raise (KeyError k)
      end
  | _ => Raise TypeError
  end.

Fixpoint chars (s : string) : list json :=
  match s with
  | EmptyString => []
  | String c rest => JStr (String c EmptyString) :: chars rest
  end.

(** What [filter(f, x)] iterates over: the elements of a list, the keys
    of a dict, the characters of a str. *)
Definition py_iter (x : json) : result (list json) :=
  match x with
  | JArr items => Ok items
  | JObj entries => Ok (map (fun kv => JStr (fst kv)) entries)
  | JStr s => Ok (chars s)
  | JNull | JBool _ | JNum _ => Raise TypeError
  end.

(** ** [get_ad_archive_id] *)

Definition is_digit (c : ascii) : bool :=
  let n := nat_of_ascii c in (48 <=? n)%nat && (n <=? 57)%nat.

(** The longest run of [[0-9]] at the head of [s]: the greedy [[0-9]+]. *)
Fixpoint digit_run (s : string) : string :=
  match s with
  | EmptyString => EmptyString
  | String c rest => if is_digit c then String c (digit_run rest) else EmptyString
  end.

(** The pattern [/\?id=([0-9]+)] tried at the head of [s]; the result is
    group 1. *)
Definition match_id_here (s : string) : option string :=
  match strip_prefix "/?id=" s with
  | Some rest =>
      match digit_run rest with
      | EmptyString => None
      | ds => Some ds
      end
  | None => None
  end.

(** [re.search(r"/\?id=([0-9]+)", s)]: the leftmost position where the
    pattern matches. *)
Fixpoint re_search_id (s : string) : option string :=
  match match_id_here s with
  | Some ds => Some ds
  | None =>
      match s with
      | EmptyString => None
      | String _ rest => re_search_id rest
      end
  end.

(** [re.search(..., data["ad_snapshot_url"]).group(1)].  [re.search]
    raises [TypeError] on a value that is not a string, and [group] on the
    [None] of a failed search raises [AttributeError]. *)
Definition get_ad_archive_id (data : json) : result string :=
  url <- py_getitem data "ad_snapshot_url" ;;
  match url with
  | JStr s =>
      match re_search_id s with
      | Some ds => Ok ds
      | None => Raise AttributeError
      end
  | _ => Raise TypeError
  end.

(** ** [datetime.strptime(s, "%Y-%m-%d")]

    [_strptime] turns the format into the regular expression
    [(?P<Y>\d\d\d\d)-(?P<m>1[0-2]|0[1-9]|[1-9])-(?P<d>3[0-1]|[1-2]\d|0[1-9]|[1-9]| [1-9])],
    matches it at the start of the text, and refuses text that goes on
    after the match.  The alternatives of a group are tried in order; a
    shorter alternative of the month never rescues a failed match, since
    the character after it would have to be both a digit and [-]. *)

Definition between (lo hi : nat) (c : ascii) : bool :=
  let n := nat_of_ascii c in (lo <=? n)%nat && (n <=? hi)%nat.

Definition digit_value (c : ascii) : Z := Z.of_nat (nat_of_ascii c) - 48.

(** [\d\d\d\d] *)
Definition parse_Y (s : string) : option (Z * string) :=
  match s with
  | String a (String b (String c (String d rest))) =>
      if is_digit a && is_digit b && is_digit c && is_digit d
      then Some (1000 * digit_value a + 100 * digit_value b
                 + 10 * digit_value c + digit_value d, rest)
      else None
  | _ => None
  end.

(** [1[0-2]|0[1-9]|[1-9]] *)
Definition parse_m (s : string) : option (Z * string) :=
  match s with
  | String a rest =>
      match rest with
      | String b rest' =>
          if between 49 49 a && between 48 50 b
          then Some (10 + digit_value b, rest')
          else if between 48 48 a && between 49 57 b
          then Some (digit_value b, rest')
          else if between 49 57 a then Some (digit_value a, rest)
          else None
      | EmptyString =>
          if between 49 57 a then Some (digit_value a, rest) else None
      end
  | EmptyString => None
  end.

(** [3[0-1]|[1-2]\d|0[1-9]|[1-9]| [1-9]] *)
Definition parse_d (s : string) : option (Z * string) :=
  match s with
  | String a rest =>
      match rest with
      | String b rest' =>
          if between 51 51 a && between 48 49 b
          then Some (30 + digit_value b, rest')
          else if between 49 50 a && is_digit b
          then Some (10 * digit_value a + digit_value b, rest')
          else if between 48 48 a && between 49 57 b
          then Some (digit_value b, rest')
          else if between 49 57 a then Some (digit_value a, rest)
          else if between 32 32 a && between 49 57 b
          then Some (digit_value b, rest')
          else None
      | EmptyString =>
          if between 49 57 a then Some (digit_value a, rest) else None
      end
  | EmptyString => None
  end.

(** The calendar of [datetime]: [_is_leap], [_days_in_month],
    [_days_before_year], [_days_before_month] and [_ymd2ord]. *)
Definition is_leap (year : Z) : bool :=
  (year mod 4 =? 0) && (negb (year mod 100 =? 0) || (year mod 400 =? 0)).

Definition days_in_month (year month : Z) : Z :=
  if (month =? 2) && is_leap year then 29
  else nth (Z.to_nat month) [-1; 31; 28; 31; 30; 31; 30; 31; 31; 30; 31; 30; 31] 0.

Definition days_before_year (year : Z) : Z :=
  let y := year - 1 in y * 365 + y / 4 - y / 100 + y / 400.

Definition days_before_month (year month : Z) : Z :=
  nth (Z.to_nat month) [-1; 0; 31; 59; 90; 120; 151; 181; 212; 243; 273; 304; 334] 0
  + (if (2 <? month) && is_leap year then 1 else 0).

Definition ymd2ord (year month day : Z) : Z :=
  days_before_year year + days_before_month year month + day.

Record date : Type := { year : Z; month : Z; day : Z }.

(** The date a text denotes, when the regular expression accepts all of
    it. *)
Definition match_ymd (s : string) : option date :=
  match parse_Y s with
  | Some (y, r1) =>
      match strip_prefix "-" r1 with
      | Some r2 =>
          match parse_m r2 with
          | Some (m, r3) =>
              match strip_prefix "-" r3 with
              | Some r4 =>
                  match parse_d r4 with
                  | Some (d, EmptyString) => Some {| year := y; month := m; day := d |}
                  | _ => None
                  end
              | None => None
              end
          | None => None
          end
      | None => None
      end
  | None => None
  end.

(** [date(year, month, day)] accepts years 1 to 9999 and the days the
    month has. *)
Definition valid_date (d : date) : bool :=
  (1 <=? year d) && (year d <=? 9999)
  && (1 <=? month d) && (month d <=? 12)
  && (1 <=? day d) && (day d <=? days_in_month (year d) (month d)).

(** [datetime.strptime(v, "%Y-%m-%d")]: [TypeError] when [v] is not a
    string, [ValueError] when the text does not match or names no day of
    the calendar. *)
Definition strptime (v : json) : result date :=
  match v with
  | JStr s =>
      match match_ymd s with
      | Some d => if valid_date d then Ok d else Raise ValueError
      | None => Raise ValueError
      end
  | _ => Raise TypeError
  end.

(** ** The traversal *)

(** [start_time_cutoff_before] holds either the string [""] or a
    timestamp. *)
Inductive cutoff : Type :=
| NoCutoff
| Cutoff (t : Z).

(** The truth value [if start_time_cutoff_before:] tests: the empty
    string is false, and so is the number zero. *)
Definition truthy (c : cutoff) : bool :=
  match c with
  | NoCutoff => false
  | Cutoff t => negb (t =? 0)
  end.

(** The value of [next_page_url]: [None], a string, or whatever other
    JSON value a page carried under [paging.next]. *)
Inductive cursor : Type :=
| CNone
| CUrl (url : string)
| CValue (v : json).

Definition cursor_of (v : json) : cursor :=
  match v with
  | JNull => CNone
  | JStr s => CUrl s
  | _ => CValue v
  end.

(** The locals the loop never assigns. *)
Record config : Type := {
  retry_limit : Z;
  start_time_cutoff_after : Z;
  start_time_cutoff_before : cutoff
}.

Inductive event : Type :=
| EFetch (url : string)
| EYield (batch : list json).

Definition default_ad_delivery_date_min : string := "2022-01-01".
Definition default_retry_limit : Z := 3.
Definition default_ad_delivery_date_max : string := "".

Definition ad_delivery_start_time : string := "ad_delivery_start_time".

(** [list(filter(f, items))], where [f] may raise: the first exception
    ends the filtering. *)
Fixpoint filter_records (f : json -> result bool) (items : list json)
  : result (list json) :=
  match items with
  | [] => Ok []
  | x :: rest =>
      keep <- f x ;;
      kept <- filter_records f rest ;;
      Ok (if keep then x :: kept else kept)
  end.

(** ** A scripted server and a serializer, for the examples *)

(** The server answers the successive requests with the successive
    entries of a script, whatever the URL; when the script is used up the
    transfer fails. *)
Definition script : Type := list (result json).

Definition scripted_get (w : script) (url : string) : result json * script :=
  match w with
  | [] => (Raise RequestError, [])
  | response :: rest => (response, rest)
  end.

Definition quote : string := String (ascii_of_nat 34) EmptyString.

Definition show_Z (n : Z) : string :=
  match n with
  | Z0 => "0"
  | Zpos p => NilEmpty.string_of_uint (Pos.to_uint p)
  | Zneg p => "-" ++ NilEmpty.string_of_uint (Pos.to_uint p)
  end.

(** The text [json.dumps] gives for values whose strings need no
    escaping. *)
Fixpoint show_json (v : json) : string :=
  match v with
  | JNull => "null"
  | JBool true => "true"
  | JBool false => "false"
  | JNum n => show_Z n
  | JStr s => quote ++ s ++ quote
  | JArr items =>
      "[" ++ (fix go (l : list json) : string :=
                match l with
                | [] => ""
                | [x] => show_json x
                | x :: rest => show_json x ++ ", " ++ go rest
                end) items ++ "]"
  | JObj entries =>
      "{" ++ (fix go (l : list (string * json)) : string :=
                match l with
                | [] => ""
                | [(k, x)] => quote ++ k ++ quote ++ ": " ++ show_json x
                | (k, x) :: rest =>
                    quote ++ k ++ quote ++ ": " ++ show_json x ++ ", " ++ go rest
                end) entries ++ "}"
  end.

(** The events of a trace that are batches. *)
Fixpoint batches (tr : list event) : list (list json) :=
  match tr with
  | [] => []
  | EYield batch :: rest => batch :: batches rest
  | EFetch _ :: rest => batches rest
  end.

Definition snapshot (url : string) : json := JObj [("ad_snapshot_url", JStr url)].

Definition ad (date_text : string) : json :=
  JObj [("id", JStr "1"); (ad_delivery_start_time, JStr date_text)].

Definition error_page : json :=
  JObj [("error", JObj [("message", JStr "limit reached"); ("code", JNum 613)])].

Definition data_page (records : list json) : json :=
  JObj [("data", JArr records)].

Definition linked_page (records : list json) (next : string) : json :=
  JObj [("data", JArr records); ("paging", JObj [("next", JStr next)])].

(** The last page as the API sends it: paging cursors, and no ["next"]. *)
Definition last_page (records : list json) : json :=
  JObj [("data", JArr records);
        ("paging", JObj [("cursors", JObj [("before", JStr "MAZDZD");
                                            ("after", JStr "MjQZD")])])].

Definition three_errors_then_page : script :=
  [Ok error_page; Ok error_page; Ok error_page; Ok (data_page [ad "2022-03-01"])].

Definition four_errors_then_page : script :=
  Ok error_page :: three_errors_then_page.

(** The locals for the minimum date 2022-01-01, no maximum date and the
    default retry limit, in UTC. *)
Definition since_2022 : config :=
  {| retry_limit := 3;
     start_time_cutoff_after := 1640995200;
     start_time_cutoff_before := NoCutoff |}.

(** The locals for the minimum and maximum date 1970-01-01, in UTC. *)
Definition epoch_only : config :=
  {| retry_limit := 3;
     start_time_cutoff_after := 0;
     start_time_cutoff_before := Cutoff 0 |}.


(** ** Vocabulary of the statements about texts *)

(** [p] is at the head of [s] with a digit right after it. *)
Definition digit_follows (p s : string) : bool :=
  match strip_prefix p s with
  | Some (String d _) => is_digit d
  | _ => false
  end.

(** [p] occurs somewhere in [s] with a digit right after it. *)
Fixpoint occurs_before_digit (p s : string) : bool :=
  digit_follows p s
  || match s with
     | EmptyString => false
     | String _ rest => occurs_before_digit p rest
     end.

(** ** Vocabulary of the further statements *)

(** [s] is made of the digits 0 to 9 only. *)
Fixpoint all_digits (s : string) : bool :=
  match s with
  | EmptyString => true
  | String c rest => is_digit c && all_digits rest
  end.

(** [c] is one of the characters of [s]. *)
Fixpoint has_char (c : ascii) (s : string) : bool :=
  match s with
  | EmptyString => false
  | String c' rest => Ascii.eqb c c' || has_char c rest
  end.

(** [s] starts with a digit. *)
Definition starts_with_digit (s : string) : bool :=
  match s with
  | EmptyString => false
  | String c _ => is_digit c
  end.

(** The order of the calendar: [a] is the day [b] or an earlier day. *)
Definition date_leb (a b : date) : bool :=
  (year a <? year b)
  || ((year a =? year b)
      && ((month a <? month b)
          || ((month a =? month b) && (day a <=? day b)))).

(** The first day [datetime] can hold. *)
Definition first_day : date := {| year := 1; month := 1; day := 1 |}.

(** The last day [datetime] can hold. *)
Definition last_day : date := {| year := 9999; month := 12; day := 31 |}.

(** The number of requests in a trace. *)
Fixpoint fetches (tr : list event) : nat :=
  match tr with
  | [] => O
  | EFetch _ :: rest => S (fetches rest)
  | EYield _ :: rest => fetches rest
  end.

(** ** The class [FbAdsLibraryTraversal]

    An instance holds what [__init__] stores.  The parameters that go
    into the URL are taken to be strings, and [page_limit] an integer:
    [format] puts a string in as it is and an integer in decimal. *)
Module FbAdsLibraryTraversal.

Record t : Type := {
  page_count : Z;
  access_token : string;
  fields : string;
  search_term : string;
  country : string;
  ad_delivery_date_min : string;
  ad_delivery_date_max : string;
  search_page_ids : string;
  ad_active_status : string;
  page_limit : Z;
  retry_limit : Z;
  api_version : string
}.

Definition default_api_version : string := "v14.0".
Definition default_country : string := "TW".
Definition default_search_page_ids : string := "".
Definition default_ad_active_status : string := "ALL".
Definition default_page_limit : Z := 500.

(** Lines 31 to 59; [api_version] is [None] or a string. *)
Definition __init__ (access_token fields search_term country search_page_ids
                     ad_active_status ad_delivery_date_min ad_delivery_date_max : string)
           (page_limit : Z) (api_version : option string) (retry_limit : Z) : t :=
  {| page_count := 0;
     access_token := access_token;
     fields := fields;
     search_term := search_term;
     country := country;
     ad_delivery_date_min := ad_delivery_date_min;
     ad_delivery_date_max := ad_delivery_date_max;
     search_page_ids := search_page_ids;
     ad_active_status := ad_active_status;
     page_limit := page_limit;
     retry_limit := retry_limit;
     api_version := match api_version with
                    | None => default_api_version
                    | Some v => v
                    end |}.

(** Lines 62 to 71: [default_url_pattern.format(...)], the pattern with
    its eight fields filled in order. *)
Definition first_url (self : t) : string :=
  "https://graph.facebook.com/" ++ api_version self
  ++ "/ads_archive?access_token=" ++ access_token self
  ++ "&fields=" ++ fields self
  ++ "&search_terms=" ++ search_term self
  ++ "&ad_reached_countries=" ++ country self
  ++ "&search_page_ids=" ++ search_page_ids self
  ++ "&ad_active_status=" ++ ad_active_status self
  ++ "&limit=" ++ show_Z (page_limit self).

End FbAdsLibraryTraversal.

Section Traversal.

(** The world outside the program.  [get_json w url] is
    [json.loads(requests.get(url).text)] in the world [w]: the decoded
    page, or the exception of a failed transfer or of a body that is
    not JSON, and the world after the request.  [json_dumps] is
    [json.dumps].  [utcoffset] is the offset of the local time zone in
    seconds east of UTC, taken to be the same at every date. *)
Variable World : Type.
Variable get_json : World -> string -> result json * World.
Variable json_dumps : json -> string.
Variable utcoffset : Z.

(** [datetime(...).timestamp()] of a midnight, in seconds.  The library
    looks for the instant [u] whose local time is the naive time [t]
    ([_mktime], and [local_to_seconds] in the C module).  Its helper
    [local(u)] builds the local [datetime] of the instant [u], and raises
    [ValueError] when the year of that time is not between 1 and 9999.
    Times are counted in seconds from 1970-01-01T00:00:00. *)
Definition min_seconds : Z := (1 - 719163) * 86400.
Definition max_seconds : Z := (3652059 - 719163) * 86400 + 86399.
Definition max_fold_seconds : Z := 24 * 3600.

Definition local (u : Z) : result Z :=
  let s := u + utcoffset in
  if (min_seconds <=? s) && (s <=? max_seconds) then Ok s else Raise ValueError.

(** The end of [_mktime], reached when the offsets found before and
    after the time differ. *)
Definition other_offset (t t1 u1 b : Z) : result Z :=
  let u2 := t - b in
  t2 <- local u2 ;;
  if t2 =? t then Ok u2
  else if t1 =? t then Ok u1
  else Ok (Z.max u1 u2).

Definition timestamp (d : date) : result Z :=
  let t := (ymd2ord (year d) (month d) (day d) - 719163) * 86400 in
  lt <- local t ;;
  let a := lt - t in
  let u1 := t - a in
  t1 <- local u1 ;;
  if t1 =? t then
    let u2 := u1 - max_fold_seconds in
    lt2 <- local u2 ;;
    let b := lt2 - u2 in
    if a =? b then Ok u1 else other_offset t t1 u1 b
  else other_offset t t1 u1 (t1 - u1).

(** The mutable locals of the generator, and the world. *)
Record state : Type := {
  next_page_url : cursor;
  last_error_url : option string;
  last_retry_count : Z;
  world : World
}.

(** The two lambdas of the filter: the first is the one of line 115,
    the second the one of line 129. *)
Definition in_window_before (before after : Z) (ad_archive : json) : result bool :=
  has <- py_contains ad_delivery_start_time ad_archive ;;
  if has then
    v <- py_getitem ad_archive ad_delivery_start_time ;;
    d <- strptime v ;;
    t <- timestamp d ;;
    Ok ((before >=? t) && (t >=? after))
  else Ok false.

Definition in_window (after : Z) (ad_archive : json) : result bool :=
  has <- py_contains ad_delivery_start_time ad_archive ;;
  if has then
    v <- py_getitem ad_archive ad_delivery_start_time ;;
    d <- strptime v ;;
    t <- timestamp d ;;
    Ok (t >=? after)
  else Ok false.

(** Line 112 chooses between them by the truth value of
    [start_time_cutoff_before]. *)
Definition record_filter (cfg : config) : json -> result bool :=
  match start_time_cutoff_before cfg with
  | Cutoff before =>
      if truthy (Cutoff before)
      then in_window_before before (start_time_cutoff_after cfg)
      else in_window (start_time_cutoff_after cfg)
  | NoCutoff => in_window (start_time_cutoff_after cfg)
  end.

(** Lines 112 to 138: the filtered list of a page. *)
Definition filter_page (cfg : config) (response_data : json) : result (list json) :=
  data <- py_getitem response_data "data" ;;
  items <- py_iter data ;;
  filter_records (record_filter cfg) items.

Definition error_message (payload : json) (url : string) : string :=
  "Error message: [" ++ json_dumps payload ++ "], failed on URL: [" ++ url ++ "]".

Definition same_url (url : string) (last : option string) : bool :=
  match last with
  | Some u => String.eqb url u
  | None => false
  end.

(** Lines 146 to 149, run when the generator is resumed after a
    [yield]. *)
Definition advance (st : state) (w : World) (response_data : json) : result state :=
  has <- py_contains "paging" response_data ;;
  if has then
    paging <- py_getitem response_data "paging" ;;
    next <- py_getitem paging "next" ;;
    Ok {| next_page_url := cursor_of next;
          last_error_url := last_error_url st;
          last_retry_count := last_retry_count st;
          world := w |}
  else
    Ok {| next_page_url := CNone;
          last_error_url := last_error_url st;
          last_retry_count := last_retry_count st;
          world := w |}.

(** What one pass through the body of the [while] loop does. *)
Inductive step : Type :=
| Retry (st : state)
| Yield (batch : list json) (resumed : result state)
| Break
| Raised (e : exn).

(** Lines 95 to 149, with [next_page_url] the string [url]. *)
Definition loop_body (cfg : config) (st : state) (url : string) : step :=
  let (response, w) := get_json (world st) url in
  match response with
  | Raise e => Raised e
  | Ok response_data =>
      match py_contains "error" response_data with
      | Raise e => Raised e
      | Ok true =>
          if same_url url (last_error_url st) then
            if last_retry_count st >=? retry_limit cfg then
              match py_getitem response_data "error" with
              | Raise e => Raised e
              | Ok payload => Raised (Exception (error_message payload url))
              end
            else
              Retry {| next_page_url := CUrl url;
                       last_error_url := last_error_url st;
                       last_retry_count := last_retry_count st + 1;
                       world := w |}
          else
            Retry {| next_page_url := CUrl url;
                     last_error_url := Some url;
                     last_retry_count := 0 + 1;
                     world := w |}
      | Ok false =>
          match filter_page cfg response_data with
          | Raise e => Raised e
          | Ok filtered =>
              if Z.of_nat (List.length filtered) =? 0 then Break
              else Yield filtered (advance st w response_data)
          end
      end
  end.

(** How a run of the generator ends: the sequence is exhausted, an
    exception escapes, or the fuel of the model ran out with the
    generator in [st]. *)
Inductive outcome : Type :=
| Exhausted
| Failed (e : exn)
| Running (st : state).

(** The generator driven to its end by a consumer that keeps asking for
    the next batch, for at most [fuel] passes through the loop.
    [requests.get] refuses a value that is not a string before any
    request is made. *)
Fixpoint run (cfg : config) (fuel : nat) (st : state) : list event * outcome :=
  match fuel with
  | O => ([], Running st)
  | S fuel' =>
      match next_page_url st with
      | CNone => ([], Exhausted)
      | CValue _ => ([], Failed RequestError)
      | CUrl url =>
          match loop_body cfg st url with
          | Retry st' =>
              let (tr, o) := run cfg fuel' st' in (EFetch url :: tr, o)
          | Yield batch (Ok st') =>
              let (tr, o) := run cfg fuel' st' in
              (EFetch url :: EYield batch :: tr, o)
          | Yield batch (Raise e) => ([EFetch url; EYield batch], Failed e)
          | Break => ([EFetch url], Exhausted)
          | Raised e => ([EFetch url], Failed e)
          end
      end
  end.

(** Lines 85 to 92: the locals before the loop. *)
Definition locals (ad_delivery_date_min : string) (retry_limit : Z)
           (ad_delivery_date_max : string) : result config :=
  d <- strptime (JStr ad_delivery_date_min) ;;
  after <- timestamp d ;;
  before <-
    (if String.eqb ad_delivery_date_max "" then Ok NoCutoff
     else d' <- strptime (JStr ad_delivery_date_max) ;;
          t <- timestamp d' ;;
          Ok (Cutoff t)) ;;
  Ok {| retry_limit := retry_limit;
        start_time_cutoff_after := after;
        start_time_cutoff_before := before |}.

Definition cursor_of_arg (next_page_url : option string) : cursor :=
  match next_page_url with
  | Some url => CUrl url
  | None => CNone
  end.

Definition initial (w : World) (next_page_url : option string) : state :=
  {| next_page_url := cursor_of_arg next_page_url;
     last_error_url := None;
     last_retry_count := 0;
     world := w |}.

(** The generator [_get_ad_archives_from_url(...)] consumed in the
    world [w]. *)
Definition _get_ad_archives_from_url (w : World) (fuel : nat)
           (next_page_url : option string) (ad_delivery_date_min : string)
           (retry_limit : Z) (ad_delivery_date_max : string)
  : list event * outcome :=
  match locals ad_delivery_date_min retry_limit ad_delivery_date_max with
  | Raise e => ([], Failed e)
  | Ok cfg => run cfg fuel (initial w next_page_url)
  end.

(** [generate_ad_archives_from_url(failure_url, ad_delivery_date_min)]:
    the other two parameters take their defaults. *)
Definition generate_ad_archives_from_url (w : World) (fuel : nat)
           (failure_url : option string) (ad_delivery_date_min : string)
  : list event * outcome :=
  _get_ad_archives_from_url w fuel failure_url ad_delivery_date_min
    default_retry_limit default_ad_delivery_date_max.


(** *** Vocabulary of the statements about runs *)


(** The world after [n] requests of [url] in a row. *)
Fixpoint refetch (url : string) (n : nat) (w : World) : World :=
  match n with
  | O => w
  | S n' => refetch url n' (snd (get_json w url))
  end.

(** In the world [w] the request of [url] is answered by a page with an
    ["error"] entry, whose value is [payload]. *)
Definition api_error (w : World) (url : string) (payload : json) : Prop :=
  exists entries,
    fst (get_json w url) = Ok (JObj entries)
    /\ lookup "error" entries = Some payload.

(** From the world [w] on, [n] requests of [url] in a row are answered
    by pages with an ["error"] entry. *)
Fixpoint error_streak (url : string) (n : nat) (w : World) : Prop :=
  match n with
  | O => True
  | S n' =>
      (exists payload, api_error w url payload)
      /\ error_streak url n' (snd (get_json w url))
  end.

(** A run that goes on after the events [pre]. *)
Definition after_events (pre : list event) (r : list event * outcome)
  : list event * outcome :=
  ((pre ++ fst r)%list, snd r).

(** The state [n] failed passes later, for a [url] that was not the
    last to fail before them. *)
Definition after_errors (st : state) (url : string) (n : nat) : state :=
  match n with
  | O => st
  | S _ =>
      {| next_page_url := CUrl url;
         last_error_url := Some url;
         last_retry_count := Z.of_nat n;
         world := refetch url n (world st) |}
  end.


(** An in-progress run, as the restart is described: its cursor is
    [url], its lower bound is the midnight of [ad_delivery_date_min], it
    has no upper bound, and its retry limit is the default. *)
Definition in_progress (cfg : config) (st : state) (url : string)
           (ad_delivery_date_min : string) : Prop :=
  next_page_url st = CUrl url
  /\ retry_limit cfg = default_retry_limit
  /\ start_time_cutoff_before cfg = NoCutoff
  /\ exists d, strptime (JStr ad_delivery_date_min) = Ok d
               /\ timestamp d = Ok (start_time_cutoff_after cfg).

(** Lines 61 to 79: [generate_ad_archives], consumed in the world [w]. *)
Definition generate_ad_archives (self : FbAdsLibraryTraversal.t) (w : World)
           (fuel : nat) : list event * outcome :=
  let next_page_url := FbAdsLibraryTraversal.first_url self in
  if negb (String.eqb (FbAdsLibraryTraversal.ad_delivery_date_max self) "")
  then
    _get_ad_archives_from_url w fuel (Some next_page_url)
      (FbAdsLibraryTraversal.ad_delivery_date_min self)
      (FbAdsLibraryTraversal.retry_limit self)
      (FbAdsLibraryTraversal.ad_delivery_date_max self)
  else
    _get_ad_archives_from_url w fuel (Some next_page_url)
      (FbAdsLibraryTraversal.ad_delivery_date_min self)
      (FbAdsLibraryTraversal.retry_limit self)
      default_ad_delivery_date_max.

(** *** Vocabulary of the further statements about runs *)

(** The retry tracking is consistent: nothing recorded and the counter
    at 0, or a URL recorded and the counter between 1 and the limit (or
    at 1 when the limit is below 1). *)
Definition tracking_ok (cfg : config) (st : state) : Prop :=
  match last_error_url st with
  | None => last_retry_count st = 0
  | Some _ => 1 <= last_retry_count st <= Z.max (retry_limit cfg) 1
  end.

(** The filter keeps [r]: its lambda answers [True]. *)
Definition kept (cfg : config) (r : json) : bool :=
  match record_filter cfg r with
  | Ok true => true
  | _ => false
  end.

(** A consumer that asks for the next element gets its answer after [n]
    requests of [url]: the end of the sequence, an exception, or a
    batch. *)
Definition returns_after (cfg : config) (st : state) (url : string) (n : nat) : Prop :=
  run cfg n st = (repeat (EFetch url) n, Exhausted)
  \/ (exists e, run cfg n st = (repeat (EFetch url) n, Failed e))
  \/ (exists batch o,
         run cfg n st = ((repeat (EFetch url) n ++ [EYield batch])%list, o)).

(** * Properties of the traversal *)

Unset Implicit Arguments.

(** ** The delivery-date filter *)

Lemma filter_records_kept (f : json -> result bool) (items kept : list json) (r : json) :
filter_records f items = Ok kept -> In r kept -> In r items /\ f r = Ok true.
Proof.
revert kept; induction items as [|x items IH]; intros kept; simpl.
- intros [= <-] [].
- destruct (f x) as [keep|e] eqn:Ex; simpl; [|discriminate].
  destruct (filter_records f items) as [kept'|e]; simpl; [|discriminate].
  intros [= <-] Hin. destruct keep.
  + destruct Hin as [<-|Hin]; [now split; [left|]|].
    destruct (IH kept' eq_refl Hin). now split; [right|].
  + destruct (IH kept' eq_refl Hin). now split; [right|].
Qed.

Lemma filter_records_raises (f : json -> result bool) (items : list json)
    (r : json) (e0 : exn) :
In r items -> f r = Raise e0 -> exists e, filter_records f items = Raise e.
Proof.
induction items as [|x items IH]; simpl; [intros []|].
intros [->|Hin] Hr.
- rewrite Hr. simpl. eauto.
- destruct (f x); simpl; [|eauto].
  destruct (IH Hin Hr) as [e ->]. simpl. eauto.
Qed.

Lemma filter_records_exn (P : exn -> Prop) (f : json -> result bool)
    (items : list json) (e : exn) :
(forall x e', f x = Raise e' -> P e') ->
filter_records f items = Raise e -> P e.
Proof.
intros Hf. induction items as [|x items IH]; simpl; [discriminate|].
destruct (f x) as [keep|e'] eqn:Ex; simpl.
- destruct (filter_records f items); simpl; [discriminate|].
  intros [= <-]. now apply IH.
- intros [= <-]. now apply (Hf x).
Qed.



(** Both lambdas answer [False] without looking further when the field
    is missing. *)
Lemma record_filter_field (cfg : config) (r : json) :
  record_filter cfg r = Ok true ->
  py_contains ad_delivery_start_time r = Ok true.
Proof.
  unfold record_filter, in_window_before, in_window.
  destruct (start_time_cutoff_before cfg) as [|t]; [|destruct (truthy (Cutoff t))];
    destruct (py_contains ad_delivery_start_time r) as [[|]|]; simpl;
    congruence.
Qed.

(** *** Timestamps *)

Lemma local_in_range (u : Z) :
  min_seconds <= u + utcoffset <= max_seconds ->
  local u = Ok (u + utcoffset).
Proof.
  intros H. unfold local. cbv zeta.
  destruct (Z.leb_spec min_seconds (u + utcoffset));
    destruct (Z.leb_spec (u + utcoffset) max_seconds); simpl; try lia.
  reflexivity.
Qed.

Lemma local_out_of_range (u : Z) :
  u + utcoffset < min_seconds \/ max_seconds < u + utcoffset ->
  local u = Raise ValueError.
Proof.
  intros H. unfold local. cbv zeta.
  destruct (Z.leb_spec min_seconds (u + utcoffset));
    destruct (Z.leb_spec (u + utcoffset) max_seconds); simpl; try lia;
    reflexivity.
Qed.

Lemma local_cases (u : Z) :
  (local u = Ok (u + utcoffset)
   /\ min_seconds <= u + utcoffset <= max_seconds)
  \/ local u = Raise ValueError.
Proof.
  unfold local. cbv zeta.
  destruct (Z.leb_spec min_seconds (u + utcoffset));
    destruct (Z.leb_spec (u + utcoffset) max_seconds); simpl; auto.
Qed.

(** [timestamp()] raises nothing but [ValueError]. *)
Lemma timestamp_exn (d : date) (e : exn) :
  timestamp d = Raise e -> e = ValueError.
Proof.
  assert (Ho : forall t t1 u1 b, other_offset t t1 u1 b = Raise e -> e = ValueError).
  { intros t t1 u1 b. unfold other_offset. cbv zeta.
    destruct (local_cases (t - b)) as [[-> _]| ->]; cbn [bind].
    - destruct (_ =? t); [discriminate|]. destruct (t1 =? t); discriminate.
    - now intros [= <-]. }
  unfold timestamp. cbv zeta.
  set (T := (ymd2ord (year d) (month d) (day d) - 719163) * 86400).
  destruct (local_cases T) as [[-> _]| ->]; cbn [bind]; [|now intros [= <-]].
  destruct (local_cases (T - (T + utcoffset - T))) as [[-> _]| ->]; cbn [bind];
    [|now intros [= <-]].
  destruct (_ =? T); [|apply Ho].
  destruct (local_cases (T - (T + utcoffset - T) - max_fold_seconds))
    as [[-> _]| ->]; cbn [bind]; [|now intros [= <-]].
  destruct (_ =? _); [discriminate | apply Ho].
Qed.

(** When [timestamp()] returns, it returns the midnight of the day moved
    by the offset, and the day before that midnight is still in the
    calendar. *)
Lemma timestamp_value (d : date) (t : Z) :
  timestamp d = Ok t ->
  t = (ymd2ord (year d) (month d) (day d) - 719163) * 86400 - utcoffset
  /\ min_seconds + max_fold_seconds
     <= (ymd2ord (year d) (month d) (day d) - 719163) * 86400.
Proof.
  unfold timestamp. cbv zeta.
  set (T := (ymd2ord (year d) (month d) (day d) - 719163) * 86400).
  destruct (local_cases T) as [[-> _]| ->]; cbn [bind]; [|discriminate].
  destruct (local_cases (T - (T + utcoffset - T))) as [[-> _]| ->]; cbn [bind];
    [|discriminate].
  destruct (Z.eqb_spec (T - (T + utcoffset - T) + utcoffset) T); [|lia].
  destruct (local_cases (T - (T + utcoffset - T) - max_fold_seconds))
    as [[-> H3]| ->]; cbn [bind]; [|discriminate].
  destruct (Z.eqb_spec (T + utcoffset - T)
              (T - (T + utcoffset - T) - max_fold_seconds + utcoffset
               - (T - (T + utcoffset - T) - max_fold_seconds))); [|lia].
  intros [= <-]. lia.
Qed.

Lemma timestamp_in_range (d : date) :
  min_seconds + max_fold_seconds
  <= (ymd2ord (year d) (month d) (day d) - 719163) * 86400 <= max_seconds ->
  min_seconds
  <= (ymd2ord (year d) (month d) (day d) - 719163) * 86400 + utcoffset
  <= max_seconds ->
  timestamp d
  = Ok ((ymd2ord (year d) (month d) (day d) - 719163) * 86400 - utcoffset).
Proof.
  unfold timestamp. cbv zeta.
  set (T := (ymd2ord (year d) (month d) (day d) - 719163) * 86400).
  intros H1 H2. assert (Hf : max_fold_seconds = 86400) by reflexivity.
  rewrite (local_in_range T H2). cbn [bind].
  rewrite (local_in_range (T - (T + utcoffset - T))) by lia. cbn [bind].
  destruct (Z.eqb_spec (T - (T + utcoffset - T) + utcoffset) T); [|lia].
  rewrite (local_in_range (T - (T + utcoffset - T) - max_fold_seconds)) by lia.
  cbn [bind].
  destruct (Z.eqb_spec (T + utcoffset - T)
              (T - (T + utcoffset - T) - max_fold_seconds + utcoffset
               - (T - (T + utcoffset - T) - max_fold_seconds))); [|lia].
  f_equal. lia.
Qed.

(** The first day of the calendar has no timestamp, in any time zone:
    the library looks one day back. *)
Lemma timestamp_first_day (d : date) :
  ymd2ord (year d) (month d) (day d) = 1 -> timestamp d = Raise ValueError.
Proof.
  intros H1. destruct (timestamp d) as [t|e] eqn:E.
  - apply timestamp_value in E as [_ H]. rewrite H1 in H.
    unfold min_seconds, max_fold_seconds in H. lia.
  - apply timestamp_exn in E. now subst.
Qed.

(** A record with the field goes through [strptime], whichever lambda
    is in use. *)
Lemma record_filter_unparseable (cfg : config) (entries : list (string * json))
      (v : json) (e : exn) :
  lookup ad_delivery_start_time entries = Some v ->
  strptime v = Raise e ->
  record_filter cfg (JObj entries) = Raise e.
Proof.
  intros Hv He. unfold record_filter, in_window_before, in_window.
  destruct (start_time_cutoff_before cfg) as [|t]; [|destruct (truthy (Cutoff t))];
    simpl; rewrite Hv; simpl; rewrite He; reflexivity.
Qed.

Lemma strptime_exn (v : json) (e : exn) :
  strptime v = Raise e -> e = ValueError \/ e = TypeError.
Proof.
  unfold strptime. destruct v; try (intros [= <-]; now right).
  destruct (match_ymd s) as [d|]; [destruct (valid_date d)|];
    try discriminate; intros [= <-]; now left.
Qed.

(** The filter raises nothing but [ValueError] and [TypeError]. *)
Lemma record_filter_exn (cfg : config) (r : json) (e : exn) :
  record_filter cfg r = Raise e -> e = ValueError \/ e = TypeError.
Proof.
  assert (H : forall k : date -> result bool,
             (forall d e', k d = Raise e' -> e' = ValueError) ->
             (has <- py_contains ad_delivery_start_time r ;;
              if has then
                v <- py_getitem r ad_delivery_start_time ;;
                d <- strptime v ;; k d
              else Ok false) = Raise e ->
             e = ValueError \/ e = TypeError).
  { intros k Hk. destruct r as [| | |s|items|entries]; simpl;
      try (intros [= <-]; now right).
    - destruct (is_substring ad_delivery_start_time s); simpl;
        [intros [= <-]; now right | discriminate].
    - destruct (existsb (is_str ad_delivery_start_time) items); simpl;
        [intros [= <-]; now right | discriminate].
    - destruct (lookup ad_delivery_start_time entries) as [v|]; simpl;
        [|discriminate].
      destruct (strptime v) as [d|e'] eqn:Ev; simpl.
      + intros Hd. left. now apply Hk in Hd.
      + intros [= <-]. now apply strptime_exn in Ev. }
  unfold record_filter, in_window_before, in_window.
  destruct (start_time_cutoff_before cfg) as [|t]; [|destruct (truthy (Cutoff t))];
    apply H; intros d e'; destruct (timestamp d) as [t'|e''] eqn:Et; cbn [bind];
    try discriminate; intros [= <-]; now apply timestamp_exn in Et.
Qed.

Lemma filter_page_kept (cfg : config) (page : json) (batch : list json) (r : json) :
  filter_page cfg page = Ok batch -> In r batch ->
  py_contains ad_delivery_start_time r = Ok true.
Proof.
  unfold filter_page.
  destruct (py_getitem page "data") as [data|]; simpl; [|discriminate].
  destruct (py_iter data) as [items|]; simpl; [|discriminate].
  intros Hf Hin. apply (record_filter_field cfg).
  now destruct (filter_records_kept _ _ _ _ Hf Hin).
Qed.


(** ** The loop *)


Lemma run_unfold (cfg : config) (fuel : nat) (st : state) (url : string) :
  next_page_url st = CUrl url ->
  run cfg (S fuel) st =
  match loop_body cfg st url with
  | Retry st' => after_events [EFetch url] (run cfg fuel st')
  | Yield batch (Ok st') => after_events [EFetch url; EYield batch] (run cfg fuel st')
  | Yield batch (Raise e) => ([EFetch url; EYield batch], Failed e)
  | Break => ([EFetch url], Exhausted)
  | Raised e => ([EFetch url], Failed e)
  end.
Proof.
  intros Hurl. cbn [run]. rewrite Hurl.
  destruct (loop_body cfg st url) as [st'|batch [st'|e]| |e]; try reflexivity;
    unfold after_events; destruct (run cfg fuel st'); reflexivity.
Qed.

(** A run that stopped for lack of fuel goes on from where it stopped. *)
Lemma run_resume (cfg : config) (n m : nat) (st0 st : state) (tr : list event) :
  run cfg n st0 = (tr, Running st) ->
  run cfg (n + m) st0 = after_events tr (run cfg m st).
Proof.
  revert st0 tr; induction n as [|n IH]; intros st0 tr.
  - simpl. intros [= <- <-]. unfold after_events.
    now destruct (run cfg m st0).
  - cbn [Nat.add run].
    destruct (next_page_url st0) as [|url|v]; try discriminate.
    destruct (loop_body cfg st0 url) as [st'|batch [st'|e]| |e]; try discriminate.
    + destruct (run cfg n st') as [tr' o] eqn:E. intros [= <- ->].
      rewrite (IH _ _ E). unfold after_events. reflexivity.
    + destruct (run cfg n st') as [tr' o] eqn:E. intros [= <- ->].
      rewrite (IH _ _ E). unfold after_events. reflexivity.
Qed.

(** Every pass through the loop starts with a request of the cursor. *)
Lemma run_starts_with_fetch (cfg : config) (fuel : nat) (st : state) (url : string) :
  next_page_url st = CUrl url ->
  exists tr o, run cfg (S fuel) st = (EFetch url :: tr, o).
Proof.
  intros Hurl. rewrite (run_unfold _ _ _ _ Hurl).
  destruct (loop_body cfg st url) as [st'|batch [st'|e]| |e];
    unfold after_events; simpl; eauto.
Qed.

(** Every batch of a run is the filtered list of some page. *)
Lemma run_batches_filtered (cfg : config) (fuel : nat) (st : state)
      (tr : list event) (o : outcome) (batch : list json) :
  run cfg fuel st = (tr, o) -> In (EYield batch) tr ->
  exists page, filter_page cfg page = Ok batch.
Proof.
  assert (Hbody : forall st url batch resumed,
             loop_body cfg st url = Yield batch resumed ->
             exists page, filter_page cfg page = Ok batch).
  { intros st1 url b resumed. unfold loop_body.
    destruct (get_json (world st1) url) as [[page|e] w]; [|discriminate].
    destruct (py_contains "error" page) as [[|]|]; try discriminate.
    - destruct (same_url url (last_error_url st1)); [|discriminate].
      destruct (last_retry_count st1 >=? retry_limit cfg); [|discriminate].
      destruct (py_getitem page "error"); discriminate.
    - destruct (filter_page cfg page) as [filtered|] eqn:E; [|discriminate].
      destruct (Z.of_nat (List.length filtered) =? 0); [discriminate|].
      intros [= <- _]. eauto. }
  revert st tr o; induction fuel as [|fuel IH]; intros st tr o.
  - simpl. intros [= <- _] [].
  - cbn [run].
    destruct (next_page_url st) as [|url|v]; try (intros [= <- _] []).
    destruct (loop_body cfg st url) as [st'|b [st'|e]| |e] eqn:Eb.
    + destruct (run cfg fuel st') as [tr' o'] eqn:E. intros [= <- _] [H|H];
        [discriminate | eauto].
    + destruct (run cfg fuel st') as [tr' o'] eqn:E.
      intros [= <- _] [H|[H|H]]; [discriminate | | eauto].
      injection H as ->. eauto.
    + intros [= <- _] [H|[H|[]]]; [discriminate|]. injection H as ->. eauto.
    + intros [= <- _] [H|[]]. discriminate.
    + intros [= <- _] [H|[]]. discriminate.
Qed.

(** A record on which the lambda answers [False] is passed over: the
    filter goes on with the records after it. *)
Lemma filter_records_skip (f : json -> result bool) (front back : list json)
      (r : json) :
  f r = Ok false ->
  filter_records f (front ++ r :: back)%list = filter_records f (front ++ back)%list.
Proof.
  intros Hr. induction front as [|x front IH]; simpl.
  - rewrite Hr. simpl. now destruct (filter_records f back).
  - now rewrite IH.
Qed.

(** C4.  On a record without the delivery-start-date field the lambda
    of the filter answers [False] and raises nothing, so the filter of a
    page passes the record over and gives what it gives for the other
    records of the page; the record is in no filtered list of a page, and
    so in no batch that a traversal yields. *)
Theorem record_without_date_never_yielded (cfg : config)
        (entries : list (string * json)) :
  lookup ad_delivery_start_time entries = None ->
  record_filter cfg (JObj entries) = Ok false
  /\ (forall page front back,
         py_getitem page "data" = Ok (JArr (front ++ JObj entries :: back)%list) ->
         filter_page cfg page
         = filter_records (record_filter cfg) (front ++ back)%list)
  /\ (forall page batch,
         filter_page cfg page = Ok batch -> ~ In (JObj entries) batch)
  /\ (forall fuel st tr o batch,
         run cfg fuel st = (tr, o) -> In (EYield batch) tr ->
         ~ In (JObj entries) batch).
Proof.
  intros Hnone.
  assert (Hr : record_filter cfg (JObj entries) = Ok false).
  { unfold record_filter, in_window_before, in_window.
    destruct (start_time_cutoff_before cfg) as [|t];
      [|destruct (truthy (Cutoff t))]; simpl; now rewrite Hnone. }
  assert (Hpage : forall page batch,
             filter_page cfg page = Ok batch -> ~ In (JObj entries) batch).
  { intros page batch Hf Hin.
    pose proof (filter_page_kept _ _ _ _ Hf Hin) as H.
    simpl in H. rewrite Hnone in H. discriminate. }
  split; [exact Hr|]. split; [|split; [exact Hpage|]].
  - intros page front back Hd. unfold filter_page. rewrite Hd. cbn [bind py_iter].
    now apply filter_records_skip.
  - intros fuel st tr o batch Hrun Hy.
    destruct (run_batches_filtered _ _ _ _ _ _ Hrun Hy) as [page Hf]. eauto.
Qed.

(** C2.  When the filtered list of a page is empty the traversal ends
    there: whatever the run did before, it adds the request of that page
    to the trace and is exhausted, with no batch and no request after
    it. *)
Theorem empty_page_ends_traversal (cfg : config) (n : nat) (st0 st : state)
        (tr : list event) (url : string) (page : json) (w' : World) :
  run cfg n st0 = (tr, Running st) ->
  next_page_url st = CUrl url ->
  get_json (world st) url = (Ok page, w') ->
  py_contains "error" page = Ok false ->
  filter_page cfg page = Ok [] ->
  forall fuel,
    run cfg (n + S fuel) st0 = ((tr ++ [EFetch url])%list, Exhausted).
Proof.
  intros Hrun Hurl Hget Herr Hf fuel.
  rewrite (run_resume _ _ _ _ _ _ Hrun), (run_unfold _ _ _ _ Hurl).
  unfold loop_body. rewrite Hget, Herr, Hf. reflexivity.
Qed.

(** C10.  A page that is not an error page and holds a record whose
    delivery-start-date field is there but is not a text that
    [strptime] reads as a date makes the filter raise; the exception
    ends the traversal, and no batch is yielded for the page. *)
Theorem unparseable_date_raises (cfg : config) (st : state) (url : string)
        (page data : json) (w' : World) (items : list json)
        (entries : list (string * json)) (v : json) (e0 : exn) :
  next_page_url st = CUrl url ->
  get_json (world st) url = (Ok page, w') ->
  py_contains "error" page = Ok false ->
  py_getitem page "data" = Ok data ->
  py_iter data = Ok items ->
  In (JObj entries) items ->
  lookup ad_delivery_start_time entries = Some v ->
  strptime v = Raise e0 ->
  exists e,
    (e = ValueError \/ e = TypeError)
    /\ filter_page cfg page = Raise e
    /\ forall fuel, run cfg (S fuel) st = ([EFetch url], Failed e).
Proof.
  intros Hurl Hget Herr Hdata Hitems Hin Hv Hparse.
  pose proof (record_filter_unparseable cfg _ _ _ Hv Hparse) as Hr.
  destruct (filter_records_raises _ _ _ _ Hin Hr) as [e He].
  assert (Hf : filter_page cfg page = Raise e).
  { unfold filter_page. rewrite Hdata. simpl. rewrite Hitems. exact He. }
  exists e. split; [|split; [exact Hf|]].
  - apply (filter_records_exn (fun e => e = ValueError \/ e = TypeError)
             (record_filter cfg) items); [|exact He].
    intros x e'. apply record_filter_exn.
  - intros fuel. rewrite (run_unfold _ _ _ _ Hurl).
    unfold loop_body. rewrite Hget, Herr, Hf. reflexivity.
Qed.

(** C6.  An error page for a URL [B] while the last URL that failed is
    another URL [A] puts the tracking on [B] with the counter at 1,
    whatever the counter of [A] was, and leaves the cursor on [B]: the
    next pass requests [B] again. *)
Theorem error_on_new_url_resets_tracking (cfg : config) (st : state)
        (A B : string) (page : json) (w' : World) :
  next_page_url st = CUrl B ->
  last_error_url st = Some A ->
  A <> B ->
  get_json (world st) B = (Ok page, w') ->
  py_contains "error" page = Ok true ->
  loop_body cfg st B
  = Retry {| next_page_url := CUrl B;
             last_error_url := Some B;
             last_retry_count := 1;
             world := w' |}
  /\ forall fuel, exists tr o,
       run cfg (S (S fuel)) st = (EFetch B :: EFetch B :: tr, o).
Proof.
  intros Hurl Hlast Hne Hget Herr.
  assert (Hbody : loop_body cfg st B
                  = Retry {| next_page_url := CUrl B; last_error_url := Some B;
                             last_retry_count := 1; world := w' |}).
  { unfold loop_body. rewrite Hget, Herr, Hlast. simpl.
    destruct (String.eqb_spec B A) as [->|_]; [congruence | reflexivity]. }
  split; [exact Hbody|].
  intros fuel. rewrite (run_unfold _ _ _ _ Hurl), Hbody.
  destruct (run_starts_with_fetch cfg fuel
              {| next_page_url := CUrl B; last_error_url := Some B;
                 last_retry_count := 1; world := w' |} B eq_refl) as (tr & o & ->).
  exists tr, o. reflexivity.
Qed.


(** ** Retries *)

Lemma after_events_app (a b : list event) (r : list event * outcome) :
  after_events a (after_events b r) = after_events (a ++ b)%list r.
Proof. unfold after_events. simpl. now rewrite app_assoc. Qed.

Lemma after_events_nil (r : list event * outcome) : after_events [] r = r.
Proof. now destruct r. Qed.

Lemma api_error_page (w : World) (url : string) (payload : json) :
  api_error w url payload ->
  exists page, get_json w url = (Ok page, snd (get_json w url))
               /\ py_contains "error" page = Ok true
               /\ py_getitem page "error" = Ok payload.
Proof.
  intros (entries & Hget & Hp). destruct (get_json w url) as [r w'].
  simpl in *. subst r. exists (JObj entries). simpl. now rewrite Hp.
Qed.

(** A failed pass on a URL that was not the last to fail. *)
Lemma failed_pass_new (cfg : config) (st : state) (url : string) (payload : json) :
  same_url url (last_error_url st) = false ->
  api_error (world st) url payload ->
  loop_body cfg st url
  = Retry {| next_page_url := CUrl url; last_error_url := Some url;
             last_retry_count := 1; world := snd (get_json (world st) url) |}.
Proof.
  intros Hnew Herr. destruct (api_error_page _ _ _ Herr) as (page & Hget & Hc & _).
  unfold loop_body. rewrite Hget, Hc, Hnew. reflexivity.
Qed.

(** A failed pass on the URL that failed last, below the limit. *)
Lemma failed_pass_again (cfg : config) (st : state) (url : string) (payload : json) :
  last_error_url st = Some url ->
  last_retry_count st < retry_limit cfg ->
  api_error (world st) url payload ->
  loop_body cfg st url
  = Retry {| next_page_url := CUrl url; last_error_url := Some url;
             last_retry_count := last_retry_count st + 1;
             world := snd (get_json (world st) url) |}.
Proof.
  intros Hlast Hlt Herr.
  destruct (api_error_page _ _ _ Herr) as (page & Hget & Hc & _).
  unfold loop_body. rewrite Hget, Hc, Hlast. simpl. rewrite String.eqb_refl.
  destruct (Z.geb_spec (last_retry_count st) (retry_limit cfg)); [lia|].
  reflexivity.
Qed.

(** A failed pass on the URL that failed last, at the limit. *)
Lemma failed_pass_last (cfg : config) (st : state) (url : string) (payload : json) :
  last_error_url st = Some url ->
  retry_limit cfg <= last_retry_count st ->
  api_error (world st) url payload ->
  loop_body cfg st url = Raised (Exception (error_message payload url)).
Proof.
  intros Hlast Hge Herr.
  destruct (api_error_page _ _ _ Herr) as (page & Hget & Hc & Hp).
  unfold loop_body. rewrite Hget, Hc, Hlast. simpl. rewrite String.eqb_refl.
  destruct (Z.geb_spec (last_retry_count st) (retry_limit cfg)); [|lia].
  now rewrite Hp.
Qed.

Lemma streak_tracked (cfg : config) (url : string) (j : nat) :
  forall (st : state) (c : Z),
    next_page_url st = CUrl url ->
    last_error_url st = Some url ->
    last_retry_count st = c ->
    c + Z.of_nat j <= retry_limit cfg ->
    error_streak url j (world st) ->
    forall m,
      run cfg (j + m) st
      = after_events (repeat (EFetch url) j)
          (run cfg m {| next_page_url := CUrl url; last_error_url := Some url;
                        last_retry_count := c + Z.of_nat j;
                        world := refetch url j (world st) |}).
Proof.
  induction j as [|j IH]; intros st c Hurl Hlast Hc Hle Hs m.
  - simpl. rewrite after_events_nil, Z.add_0_r. destruct st; simpl in *.
    now subst.
  - destruct Hs as [[payload Herr] Hs].
    cbn [Nat.add]. rewrite (run_unfold _ _ _ _ Hurl).
    rewrite (failed_pass_again cfg st url payload Hlast ltac:(lia) Herr).
    rewrite (IH {| next_page_url := CUrl url; last_error_url := Some url;
                   last_retry_count := last_retry_count st + 1;
                   world := snd (get_json (world st) url) |}
                (c + 1) eq_refl eq_refl ltac:(simpl; lia) ltac:(lia) Hs m).
    rewrite after_events_app.
    replace (c + 1 + Z.of_nat j) with (c + Z.of_nat (S j)) by lia.
    reflexivity.
Qed.

Lemma after_errors_cursor (st : state) (url : string) (j : nat) :
  next_page_url st = CUrl url ->
  next_page_url (after_errors st url j) = CUrl url
  /\ world (after_errors st url j) = refetch url j (world st).
Proof. destruct j; simpl; auto. Qed.

(** While the limit allows, failed passes on one URL only request it
    again. *)
Lemma streak_new (cfg : config) (url : string) (j : nat) (st : state) :
  next_page_url st = CUrl url ->
  same_url url (last_error_url st) = false ->
  Z.of_nat j <= retry_limit cfg ->
  error_streak url j (world st) ->
  forall m,
    run cfg (j + m) st
    = after_events (repeat (EFetch url) j) (run cfg m (after_errors st url j)).
Proof.
  intros Hurl Hnew Hle Hs m. destruct j as [|j].
  - simpl. now rewrite after_events_nil.
  - destruct Hs as [[payload Herr] Hs].
    cbn [Nat.add]. rewrite (run_unfold _ _ _ _ Hurl).
    rewrite (failed_pass_new cfg st url payload Hnew Herr).
    rewrite (streak_tracked cfg url j
               {| next_page_url := CUrl url; last_error_url := Some url;
                  last_retry_count := 1;
                  world := snd (get_json (world st) url) |}
               1 eq_refl eq_refl eq_refl ltac:(lia) Hs m).
    rewrite after_events_app.
    replace (1 + Z.of_nat j) with (Z.of_nat (S j)) by lia.
    reflexivity.
Qed.

(** C1, as amended.  Take a retry limit of at least 1 and a pass at
    which the cursor is not the URL that failed last.  If the requests
    of the cursor are answered by error pages on [retry_limit + 1] passes
    in a row, the last of these passes raises [Exception] with the
    message made of the serialized payload of its page and of the URL,
    after exactly that many requests.  If they are answered by error
    pages on at most [retry_limit] passes in a row and then by a page
    without error whose filtered list is not empty, the traversal
    requests the URL once more and yields that list, and nothing is
    raised on the way. *)
Theorem retries_exhausted_after_limit (cfg : config) (st : state) (url : string) :
  next_page_url st = CUrl url ->
  same_url url (last_error_url st) = false ->
  1 <= retry_limit cfg ->
  (forall payload fuel,
      error_streak url (Z.to_nat (retry_limit cfg)) (world st) ->
      api_error (refetch url (Z.to_nat (retry_limit cfg)) (world st)) url payload ->
      run cfg (Z.to_nat (retry_limit cfg) + S fuel) st
      = (repeat (EFetch url) (S (Z.to_nat (retry_limit cfg))),
         Failed (Exception (error_message payload url))))
  /\ (forall j page w' batch fuel,
         (j <= Z.to_nat (retry_limit cfg))%nat ->
         error_streak url j (world st) ->
         get_json (refetch url j (world st)) url = (Ok page, w') ->
         py_contains "error" page = Ok false ->
         filter_page cfg page = Ok batch ->
         batch <> [] ->
         exists tr o,
           run cfg (j + S fuel) st
           = ((repeat (EFetch url) (S j) ++ EYield batch :: tr)%list, o)).
Proof.
  intros Hurl Hnew Hpos. split.
  - intros payload fuel Hs Herr.
    remember (Z.to_nat (retry_limit cfg)) as k eqn:Ek.
    destruct k as [|k]; [lia|].
    rewrite (streak_new cfg url (S k) st Hurl Hnew ltac:(lia) Hs).
    cbn [after_errors].
    rewrite run_unfold with (url := url) by reflexivity.
    rewrite failed_pass_last with (payload := payload);
      [| reflexivity | cbn [last_retry_count]; lia | exact Herr].
    unfold after_events. cbn [fst snd]. now rewrite <- repeat_cons.
  - intros j page w' batch fuel Hj Hs Hget Herr Hf Hne.
    rewrite (streak_new cfg url j st Hurl Hnew ltac:(lia) Hs).
    destruct (after_errors_cursor st url j Hurl) as [Hc Hw].
    rewrite (run_unfold _ _ _ _ Hc). unfold loop_body.
    rewrite Hw, Hget, Herr, Hf.
    destruct batch as [|x batch]; [congruence|]. cbn [List.length Z.of_nat Z.eqb].
    replace (repeat (EFetch url) (S j)) with (repeat (EFetch url) j ++ [EFetch url])%list
      by (now rewrite <- repeat_cons).
    destruct (advance (after_errors st url j) w' page) as [st'|e].
    + destruct (run cfg fuel st') as [tr o]. exists tr, o.
      unfold after_events. cbn [fst snd]. now rewrite <- !app_assoc.
    + exists [], (Failed e). unfold after_events. cbn [fst snd].
      now rewrite <- !app_assoc.
Qed.

(** ** The cursor after a batch *)

Lemma advance_without_paging (st : state) (w : World) (entries : list (string * json)) :
  lookup "paging" entries = None ->
  advance st w (JObj entries)
  = Ok {| next_page_url := CNone; last_error_url := last_error_url st;
          last_retry_count := last_retry_count st; world := w |}.
Proof. intros H. unfold advance. simpl. now rewrite H. Qed.

Lemma advance_with_next (st : state) (w : World) (entries paging : list (string * json))
      (next : json) :
  lookup "paging" entries = Some (JObj paging) ->
  lookup "next" paging = Some next ->
  advance st w (JObj entries)
  = Ok {| next_page_url := cursor_of next; last_error_url := last_error_url st;
          last_retry_count := last_retry_count st; world := w |}.
Proof. intros H1 H2. unfold advance. simpl. rewrite H1. simpl. now rewrite H2. Qed.

(** A page with a ["paging"] entry that has no ["next"] makes the
    resumed generator raise [KeyError]. *)
Lemma advance_without_next (st : state) (w : World) (entries paging : list (string * json)) :
  lookup "paging" entries = Some (JObj paging) ->
  lookup "next" paging = None ->
  advance st w (JObj entries) = Raise (KeyError "next").
Proof. intros H1 H2. unfold advance. simpl. rewrite H1. simpl. now rewrite H2. Qed.

(** ** The window *)

(** What the filter answers on a record with a readable date: the
    two-sided test when [start_time_cutoff_before] is a timestamp other
    than zero, the one-sided test otherwise. *)
Lemma record_filter_dated (cfg : config) (entries : list (string * json))
      (v : json) (d : date) (t : Z) :
  lookup ad_delivery_start_time entries = Some v ->
  strptime v = Ok d ->
  timestamp d = Ok t ->
  record_filter cfg (JObj entries)
  = Ok match start_time_cutoff_before cfg with
       | Cutoff before =>
           if before =? 0 then t >=? start_time_cutoff_after cfg
           else (before >=? t) && (t >=? start_time_cutoff_after cfg)
       | NoCutoff => t >=? start_time_cutoff_after cfg
       end.
Proof.
  intros Hv Hd Ht. unfold record_filter, in_window_before, in_window.
  destruct (start_time_cutoff_before cfg) as [|b]; [|simpl; destruct (b =? 0)];
    simpl; rewrite Hv; simpl; rewrite Hd; simpl; rewrite Ht; reflexivity.
Qed.

(** A record whose day has no timestamp makes the filter raise. *)
Lemma record_filter_undated (cfg : config) (entries : list (string * json))
      (v : json) (d : date) (e : exn) :
  lookup ad_delivery_start_time entries = Some v ->
  strptime v = Ok d ->
  timestamp d = Raise e ->
  record_filter cfg (JObj entries) = Raise e.
Proof.
  intros Hv Hd Ht. unfold record_filter, in_window_before, in_window.
  destruct (start_time_cutoff_before cfg) as [|b]; [|simpl; destruct (b =? 0)];
    simpl; rewrite Hv; simpl; rewrite Hd; simpl; rewrite Ht; reflexivity.
Qed.

Lemma locals_two_sided (ad_delivery_date_min ad_delivery_date_max : string)
      (rl : Z) (a b : date) (ta tb : Z) :
  strptime (JStr ad_delivery_date_min) = Ok a ->
  timestamp a = Ok ta ->
  strptime (JStr ad_delivery_date_max) = Ok b ->
  timestamp b = Ok tb ->
  String.eqb ad_delivery_date_max "" = false ->
  locals ad_delivery_date_min rl ad_delivery_date_max
  = Ok {| retry_limit := rl;
          start_time_cutoff_after := ta;
          start_time_cutoff_before := Cutoff tb |}.
Proof.
  intros Ha Hta Hb Htb Hne. unfold locals. rewrite Ha. cbn [bind].
  rewrite Hta. cbn [bind]. rewrite Hne, Hb. cbn [bind]. now rewrite Htb.
Qed.

(** With the bounds 2022-01-01 and 2022-01-31, in any time zone, a
    record of 2022-01-31 is kept and a record of 2022-02-01 is not. *)
Lemma window_of_january_2022 (rl : Z) :
  -86400 < utcoffset < 86400 ->
  exists cfg,
    locals "2022-01-01" rl "2022-01-31" = Ok cfg
    /\ record_filter cfg (ad "2022-01-31") = Ok true
    /\ record_filter cfg (ad "2022-02-01") = Ok false.
Proof.
  intros Hoff.
  pose (d01 := {| year := 2022; month := 1; day := 1 |}).
  pose (d31 := {| year := 2022; month := 1; day := 31 |}).
  pose (d32 := {| year := 2022; month := 2; day := 1 |}).
  assert (Hmin : min_seconds = -62135596800) by reflexivity.
  assert (Hmax : max_seconds = 253402300799) by reflexivity.
  assert (Hfold : max_fold_seconds = 86400) by reflexivity.
  assert (H01 : timestamp d01 = Ok (1640995200 - utcoffset)).
  { rewrite timestamp_in_range;
      change (ymd2ord (year d01) (month d01) (day d01)) with 738156;
      [reflexivity | lia | lia]. }
  assert (H31 : timestamp d31 = Ok (1643587200 - utcoffset)).
  { rewrite timestamp_in_range;
      change (ymd2ord (year d31) (month d31) (day d31)) with 738186;
      [reflexivity | lia | lia]. }
  assert (H32 : timestamp d32 = Ok (1643673600 - utcoffset)).
  { rewrite timestamp_in_range;
      change (ymd2ord (year d32) (month d32) (day d32)) with 738187;
      [reflexivity | lia | lia]. }
  exists {| retry_limit := rl;
            start_time_cutoff_after := 1640995200 - utcoffset;
            start_time_cutoff_before := Cutoff (1643587200 - utcoffset) |}.
  split; [now apply locals_two_sided with (a := d01) (b := d31)|].
  unfold ad. split.
  - rewrite record_filter_dated
      with (v := JStr "2022-01-31") (d := d31) (t := 1643587200 - utcoffset)
      by (reflexivity || exact H31).
    cbn [start_time_cutoff_before start_time_cutoff_after].
    f_equal. destruct (Z.eqb_spec (1643587200 - utcoffset) 0); [lia|].
    rewrite andb_true_iff, !Z.geb_le. lia.
  - rewrite record_filter_dated
      with (v := JStr "2022-02-01") (d := d32) (t := 1643673600 - utcoffset)
      by (reflexivity || exact H32).
    cbn [start_time_cutoff_before start_time_cutoff_after].
    f_equal. destruct (Z.eqb_spec (1643587200 - utcoffset) 0); [lia|].
    rewrite andb_false_iff. left.
    destruct (Z.geb_spec (1643587200 - utcoffset) (1643673600 - utcoffset));
      [lia | reflexivity].
Qed.

(** ** The restart *)

(** C7, as amended.  The restart takes a URL and a minimum date and
    nothing else, and behaves, request for request and batch for batch,
    as an in-progress traversal whose cursor is that URL, with the same
    minimum date, no upper bound and the default retry limit, provided
    the retry tracking of that traversal is empty. *)
Theorem restart_is_traversal_without_history (cfg : config) (st : state)
        (failure_url ad_delivery_date_min : string) (fuel : nat) :
  in_progress cfg st failure_url ad_delivery_date_min ->
  last_error_url st = None ->
  last_retry_count st = 0 ->
  generate_ad_archives_from_url (world st) fuel (Some failure_url)
    ad_delivery_date_min
  = run cfg fuel st.
Proof.
  intros (Hurl & Hrl & Hb & d & Hd & Ha) Hlast Hc.
  unfold generate_ad_archives_from_url, _get_ad_archives_from_url, locals.
  rewrite Hd. cbn [bind]. rewrite Ha. simpl. destruct cfg, st. simpl in *. subst.
  reflexivity.
Qed.

(** * Further properties of the traversal *)

(** ** One pass through the loop, read backwards *)

Lemma same_url_true (url : string) (last : option string) :
  same_url url last = true <-> last = Some url.
Proof.
  destruct last as [u|]; simpl; [|split; discriminate].
  destruct (String.eqb_spec url u) as [->|Hne]; split; try reflexivity;
    try discriminate; congruence.
Qed.

Lemma loop_body_retry (cfg : config) (st st' : state) (url : string) :
  loop_body cfg st url = Retry st' ->
  next_page_url st' = CUrl url
  /\ last_error_url st' = Some url
  /\ world st' = snd (get_json (world st) url)
  /\ ((last_error_url st = Some url
       /\ last_retry_count st < retry_limit cfg
       /\ last_retry_count st' = last_retry_count st + 1)
      \/ (last_error_url st <> Some url /\ last_retry_count st' = 1)).
Proof.
  unfold loop_body.
  destruct (get_json (world st) url) as [[page|e] w]; [|discriminate].
  destruct (py_contains "error" page) as [[|]|]; try discriminate.
  - destruct (same_url url (last_error_url st)) eqn:Es.
    + apply same_url_true in Es.
      destruct (Z.geb_spec (last_retry_count st) (retry_limit cfg)).
      * destruct (py_getitem page "error"); discriminate.
      * intros [= <-]. simpl. repeat split; try assumption. left.
        repeat split; [assumption | lia].
    + intros [= <-]. simpl. repeat split. right. split; [|reflexivity].
      intros H. apply same_url_true in H. congruence.
  - destruct (filter_page cfg page) as [filtered|]; [|discriminate].
    destruct (Z.of_nat (List.length filtered) =? 0); discriminate.
Qed.

Lemma loop_body_yield (cfg : config) (st : state) (url : string)
      (batch : list json) (resumed : result state) :
  loop_body cfg st url = Yield batch resumed ->
  exists page w,
    get_json (world st) url = (Ok page, w)
    /\ py_contains "error" page = Ok false
    /\ filter_page cfg page = Ok batch
    /\ batch <> []
    /\ resumed = advance st w page.
Proof.
  unfold loop_body.
  destruct (get_json (world st) url) as [[page|e] w]; [|discriminate].
  destruct (py_contains "error" page) as [[|]|] eqn:Ec; try discriminate.
  - destruct (same_url url (last_error_url st)); [|discriminate].
    destruct (last_retry_count st >=? retry_limit cfg); [|discriminate].
    destruct (py_getitem page "error"); discriminate.
  - destruct (filter_page cfg page) as [filtered|] eqn:Ef; [|discriminate].
    destruct filtered as [|x filtered]; [discriminate|].
    cbn [List.length Z.of_nat Z.eqb]. intros [= <- <-].
    exists page, w. repeat split; try assumption. discriminate.
Qed.

Lemma advance_tracking (st st' : state) (w : World) (page : json) :
  advance st w page = Ok st' ->
  last_error_url st' = last_error_url st
  /\ last_retry_count st' = last_retry_count st
  /\ world st' = w.
Proof.
  unfold advance. destruct (py_contains "paging" page) as [[|]|]; simpl;
    try discriminate.
  - destruct (py_getitem page "paging") as [paging|]; simpl; [|discriminate].
    destruct (py_getitem paging "next") as [next|]; simpl; [|discriminate].
    intros [= <-]. simpl. auto.
  - intros [= <-]. simpl. auto.
Qed.

(** Every batch of a run was yielded by some pass. *)
Lemma run_yield_pass (cfg : config) (fuel : nat) (st : state)
      (tr : list event) (o : outcome) (batch : list json) :
  run cfg fuel st = (tr, o) -> In (EYield batch) tr ->
  exists st1 url resumed, loop_body cfg st1 url = Yield batch resumed.
Proof.
  revert st tr o; induction fuel as [|fuel IH]; intros st tr o.
  - simpl. intros [= <- _] [].
  - cbn [run].
    destruct (next_page_url st) as [|url|v]; try (intros [= <- _] []).
    destruct (loop_body cfg st url) as [st'|b [st'|e]| |e] eqn:Eb.
    + destruct (run cfg fuel st') as [tr' o'] eqn:E. intros [= <- _] [H|H];
        [discriminate | eauto].
    + destruct (run cfg fuel st') as [tr' o'] eqn:E.
      intros [= <- _] [H|[H|H]]; [discriminate | | eauto].
      injection H as ->. eauto.
    + intros [= <- _] [H|[H|[]]]; [discriminate|]. injection H as ->. eauto.
    + intros [= <- _] [H|[]]. discriminate.
    + intros [= <- _] [H|[]]. discriminate.
Qed.

(** ** What a batch is *)

Lemma filter_records_filter (f : json -> result bool) (items kept' : list json) :
  filter_records f items = Ok kept' ->
  kept' = List.filter (fun x => match f x with Ok true => true | _ => false end) items.
Proof.
  revert kept'; induction items as [|x items IH]; intros kept'; simpl.
  - now intros [= <-].
  - destruct (f x) as [[|]|]; simpl; try discriminate;
      destruct (filter_records f items) as [k|]; simpl; try discriminate;
      intros [= <-]; now rewrite (IH k eq_refl).
Qed.

Lemma filter_page_selection (cfg : config) (page : json) (batch : list json) :
  filter_page cfg page = Ok batch ->
  exists data items,
    py_getitem page "data" = Ok data
    /\ py_iter data = Ok items
    /\ batch = List.filter (kept cfg) items.
Proof.
  unfold filter_page.
  destruct (py_getitem page "data") as [data|]; simpl; [|discriminate].
  destruct (py_iter data) as [items|] eqn:Ei; simpl; [|discriminate].
  intros Hf. exists data, items. split; [reflexivity|]. split; [exact Ei|].
  exact (filter_records_filter _ _ _ Hf).
Qed.

(** X1.  A batch is the selection of the records the filter keeps, in
    the order of the page and with its repetitions.  This holds of the
    filtered list of a page; and wherever a batch stands in the trace of
    a traversal, the event before it is the request of the cursor the
    traversal had reached then, and the batch is that selection from the
    page this request was answered with. *)
Theorem batch_is_ordered_selection (cfg : config) :
  (forall page batch,
      filter_page cfg page = Ok batch ->
      exists data items,
        py_getitem page "data" = Ok data
        /\ py_iter data = Ok items
        /\ batch = List.filter (kept cfg) items)
  /\ (forall fuel st tr o pre batch post,
         run cfg fuel st = (tr, o) ->
         tr = (pre ++ EYield batch :: post)%list ->
         exists pre' url n st1 page w data items,
           pre = (pre' ++ [EFetch url])%list
           /\ run cfg n st = (pre', Running st1)
           /\ next_page_url st1 = CUrl url
           /\ get_json (world st1) url = (Ok page, w)
           /\ py_contains "error" page = Ok false
           /\ py_getitem page "data" = Ok data
           /\ py_iter data = Ok items
           /\ batch = List.filter (kept cfg) items).
Proof.
  split; [apply filter_page_selection|].
  assert (Hhead : forall st url b resumed,
             next_page_url st = CUrl url ->
             loop_body cfg st url = Yield b resumed ->
             exists pre' url' n st1 page w data items,
               [EFetch url] = (pre' ++ [EFetch url'])%list
               /\ run cfg n st = (pre', Running st1)
               /\ next_page_url st1 = CUrl url'
               /\ get_json (world st1) url' = (Ok page, w)
               /\ py_contains "error" page = Ok false
               /\ py_getitem page "data" = Ok data
               /\ py_iter data = Ok items
               /\ b = List.filter (kept cfg) items).
  { intros st url b resumed Hu Hy.
    destruct (loop_body_yield _ _ _ _ _ Hy) as (page & w & Hget & Herr & Hf & _).
    destruct (filter_page_selection _ _ _ Hf) as (data & items & Hd & Hi & Hb).
    exists [], url, O, st, page, w, data, items. repeat split; assumption. }
  intros fuel. induction fuel as [|fuel IH]; intros st tr o pre batch post.
  - simpl. intros [= <- _] H. destruct pre; discriminate.
  - cbn [run]. destruct (next_page_url st) as [|url|v] eqn:Hu;
      try (intros [= <- _] H; destruct pre; discriminate).
    destruct (loop_body cfg st url) as [st'|b [st'|e]| |e] eqn:Eb.
    + destruct (run cfg fuel st') as [tr' o'] eqn:E. intros [= <- _] H.
      destruct pre as [|x pre0]; [discriminate|].
      injection H as Hx H. subst x.
      destruct (IH _ _ _ _ _ _ E H)
        as (pre' & url' & n & st1 & page & w & data & items & -> & Hrun & Hrest).
      exists (EFetch url :: pre'), url', (S n), st1, page, w, data, items.
      split; [reflexivity|]. split; [|exact Hrest].
      rewrite (run_unfold _ _ _ _ Hu), Eb, Hrun. reflexivity.
    + destruct (run cfg fuel st') as [tr' o'] eqn:E. intros [= <- _] H.
      destruct pre as [|x [|y pre1]]; [discriminate| |].
      * injection H as Hx Hb _. subst x b. now apply (Hhead st url batch (Ok st')).
      * injection H as Hx Hy H. subst x y.
        destruct (IH _ _ _ _ _ _ E H)
          as (pre' & url' & n & st1 & page & w & data & items & -> & Hrun & Hrest).
        exists (EFetch url :: EYield b :: pre'), url', (S n), st1, page, w, data, items.
        split; [reflexivity|]. split; [|exact Hrest].
        rewrite (run_unfold _ _ _ _ Hu), Eb, Hrun. reflexivity.
    + intros [= <- _] H. destruct pre as [|x [|y pre1]]; [discriminate| |].
      * injection H as Hx Hb _. subst x b. now apply (Hhead st url batch (Raise e)).
      * injection H as _ _ H. destruct pre1; discriminate.
    + intros [= <- _] H. destruct pre as [|x pre0]; [discriminate|].
      injection H as _ H. destruct pre0; discriminate.
    + intros [= <- _] H. destruct pre as [|x pre0]; [discriminate|].
      injection H as _ H. destruct pre0; discriminate.
Qed.

(** X2.  A traversal never yields an empty batch. *)
Theorem batches_are_never_empty (cfg : config) (fuel : nat) (st : state)
        (tr : list event) (o : outcome) (batch : list json) :
  run cfg fuel st = (tr, o) -> In (EYield batch) tr -> batch <> [].
Proof.
  intros Hrun Hin.
  destruct (run_yield_pass _ _ _ _ _ _ Hrun Hin) as (st1 & url & r & Hy).
  now destruct (loop_body_yield _ _ _ _ _ Hy) as (page & w & _ & _ & _ & Hne & _).
Qed.

(** ** The retry tracking *)

Lemma tracking_ok_retry (cfg : config) (st st' : state) (url : string) :
  loop_body cfg st url = Retry st' -> tracking_ok cfg st -> tracking_ok cfg st'.
Proof.
  intros Hb Hok. destruct (loop_body_retry _ _ _ _ Hb) as (_ & Hl & _ & Hc).
  unfold tracking_ok in *. rewrite Hl.
  destruct Hc as [(Hs & Hlt & ->)|(_ & ->)]; [rewrite Hs in Hok|]; lia.
Qed.

Lemma tracking_ok_yield (cfg : config) (st st' : state) (url : string)
      (batch : list json) :
  loop_body cfg st url = Yield batch (Ok st') ->
  tracking_ok cfg st -> tracking_ok cfg st'.
Proof.
  intros Hb Hok. destruct (loop_body_yield _ _ _ _ _ Hb) as (page & w & _ & _ & _ & _ & Ha).
  symmetry in Ha. destruct (advance_tracking _ _ _ _ Ha) as (Hl & Hc & _).
  unfold tracking_ok in *. now rewrite Hl, Hc.
Qed.

(** X4.  However far a traversal has got, its retry tracking is
    consistent: with no URL recorded the counter is 0, and with a URL
    recorded the counter is at least 1 and at most the retry limit (at
    most 1 when the limit is below 1). *)
Theorem tracking_stays_consistent (cfg : config) (w : World)
        (seed : option string) (n : nat) (tr : list event) (st : state) :
  run cfg n (initial w seed) = (tr, Running st) ->
  tracking_ok cfg st.
Proof.
  assert (H : forall n st0 tr st,
             tracking_ok cfg st0 ->
             run cfg n st0 = (tr, Running st) -> tracking_ok cfg st).
  { clear. intros n. induction n as [|n IH]; intros st0 tr st Hok.
    - simpl. now intros [= _ <-].
    - cbn [run]. destruct (next_page_url st0) as [|url|v];
        try discriminate.
      destruct (loop_body cfg st0 url) as [st'|b [st'|e]| |e] eqn:Eb;
        try discriminate.
      + destruct (run cfg n st') as [tr' o] eqn:E. intros [= _ ->].
        eapply IH; [|exact E]. eapply tracking_ok_retry; eassumption.
      + destruct (run cfg n st') as [tr' o] eqn:E. intros [= _ ->].
        eapply IH; [|exact E]. eapply tracking_ok_yield; eassumption. }
  apply H. reflexivity.
Qed.

(** X6.  A page of records leaves the retry tracking as it was: the URL
    recorded as the last to fail and its counter survive the batch, so
    the failures of a URL add up even when other pages succeed between
    them. *)
Theorem success_keeps_tracking (cfg : config) (st st' : state) (url : string)
        (batch : list json) :
  loop_body cfg st url = Yield batch (Ok st') ->
  last_error_url st' = last_error_url st
  /\ last_retry_count st' = last_retry_count st.
Proof.
  intros Hb. destruct (loop_body_yield _ _ _ _ _ Hb) as (page & w & _ & _ & _ & _ & Ha).
  symmetry in Ha. destruct (advance_tracking _ _ _ _ Ha) as (Hl & Hc & _). auto.
Qed.

(** ** How long a URL is retried *)

Lemma pass_returns_or_retries (cfg : config) (st : state) (url : string) :
  next_page_url st = CUrl url ->
  (exists st', loop_body cfg st url = Retry st') \/ returns_after cfg st url 1.
Proof.
  intros Hurl. unfold returns_after. rewrite (run_unfold _ _ _ _ Hurl).
  destruct (loop_body cfg st url) as [st'|b [st'|e]| |e]; simpl.
  - left. eauto.
  - right. right. right. exists b, (Running st'). reflexivity.
  - right. right. right. exists b, (Failed e). reflexivity.
  - right. left. reflexivity.
  - right. right. left. eauto.
Qed.

Lemma returns_after_retry (cfg : config) (st st' : state) (url : string) (n : nat) :
  next_page_url st = CUrl url ->
  loop_body cfg st url = Retry st' ->
  returns_after cfg st' url n -> returns_after cfg st url (S n).
Proof.
  intros Hurl Hb. unfold returns_after. rewrite (run_unfold _ _ _ _ Hurl), Hb.
  intros [H|[[e H]|(b & o & H)]]; rewrite H; unfold after_events; simpl.
  - left. reflexivity.
  - right. left. eauto.
  - right. right. eauto.
Qed.

Lemma tracked_returns (cfg : config) (url : string) (k : nat) :
  forall st,
    next_page_url st = CUrl url ->
    last_error_url st = Some url ->
    retry_limit cfg - last_retry_count st <= Z.of_nat k ->
    exists n, (1 <= n <= S k)%nat /\ returns_after cfg st url n.
Proof.
  induction k as [|k IH]; intros st Hurl Hlast Hle;
    (destruct (pass_returns_or_retries cfg st url Hurl) as [[st' Hb]|Hr];
     [|exists 1%nat; split; [lia | exact Hr]]);
    destruct (loop_body_retry _ _ _ _ Hb) as (Hu' & Hl' & _ & Hc);
    destruct Hc as [(_ & Hlt & Hc)|(Hne & _)]; try congruence; try lia.
  destruct (IH st' Hu' Hl' ltac:(lia)) as (n & Hn & Hr).
  exists (S n). split; [lia|]. eapply returns_after_retry; eassumption.
Qed.

(** X3.  A consumer that asks a traversal for its next element gets an
    answer (a batch, the end of the sequence or an exception) after at
    least one and at most [max(retry_limit, 1) + 1] requests, all of them
    for the current cursor: no URL is requested more often in a row. *)
Theorem next_returns_within_limit (cfg : config) (st : state) (url : string) :
  next_page_url st = CUrl url ->
  0 <= last_retry_count st ->
  exists n,
    (1 <= n <= Z.to_nat (Z.max (retry_limit cfg) 1) + 1)%nat
    /\ returns_after cfg st url n.
Proof.
  intros Hurl Hc.
  destruct (same_url url (last_error_url st)) eqn:Es.
  - apply same_url_true in Es.
    destruct (tracked_returns cfg url
                (Z.to_nat (Z.max (retry_limit cfg - last_retry_count st) 0))
                st Hurl Es ltac:(lia)) as (n & Hn & Hr).
    exists n. split; [lia | exact Hr].
  - destruct (pass_returns_or_retries cfg st url Hurl) as [[st' Hb]|Hr];
      [|exists 1%nat; split; [lia | exact Hr]].
    destruct (loop_body_retry _ _ _ _ Hb) as (Hu' & Hl' & _ & Hcase).
    destruct Hcase as [(Hs & _)|(_ & Hc')].
    { apply same_url_true in Hs. congruence. }
    destruct (tracked_returns cfg url (Z.to_nat (Z.max (retry_limit cfg - 1) 0))
                st' Hu' Hl' ltac:(lia)) as (n & Hn & Hr).
    exists (S n). split; [lia|]. eapply returns_after_retry; eassumption.
Qed.

(** X5.  The first error page of a URL never raises, whatever the retry
    limit: with a limit of 1, of 0 or below, a URL whose requests are
    answered by error pages is requested twice, and the second error page
    raises the permanent error. *)
Theorem failing_url_is_requested_twice (cfg : config) (st : state) (url : string)
        (first second : json) :
  next_page_url st = CUrl url ->
  same_url url (last_error_url st) = false ->
  retry_limit cfg <= 1 ->
  api_error (world st) url first ->
  api_error (refetch url 1 (world st)) url second ->
  forall fuel,
    run cfg (S (S fuel)) st
    = ([EFetch url; EFetch url], Failed (Exception (error_message second url))).
Proof.
  intros Hurl Hnew Hle H1 H2 fuel.
  rewrite (run_unfold _ _ _ _ Hurl), (failed_pass_new cfg st url first Hnew H1).
  rewrite run_unfold with (url := url) by reflexivity.
  rewrite failed_pass_last with (payload := second);
    [reflexivity | reflexivity | simpl; lia | exact H2].
Qed.

(** ** Requests and batches *)

Lemma paced_fetch (u : string) (tr : list event) :
  (forall pre b post,
      tr = (pre ++ EYield b :: post)%list ->
      exists pre' u', pre = (pre' ++ [EFetch u'])%list) ->
  (forall b post, tr <> EYield b :: post) ->
  forall pre b post,
    EFetch u :: tr = (pre ++ EYield b :: post)%list ->
    exists pre' u', pre = (pre' ++ [EFetch u'])%list.
Proof.
  intros Hp Hh pre b post H. destruct pre as [|x pre]; [discriminate|].
  injection H as Hx H. subst x. destruct pre as [|y pre].
  - exists [], u. reflexivity.
  - destruct (Hp _ _ _ H) as (pre' & u' & ->).
    exists (EFetch u :: pre'), u'. reflexivity.
Qed.

Lemma paced_fetch_yield (u : string) (b0 : list json) (tr : list event) :
  (forall pre b post,
      tr = (pre ++ EYield b :: post)%list ->
      exists pre' u', pre = (pre' ++ [EFetch u'])%list) ->
  (forall b post, tr <> EYield b :: post) ->
  forall pre b post,
    EFetch u :: EYield b0 :: tr = (pre ++ EYield b :: post)%list ->
    exists pre' u', pre = (pre' ++ [EFetch u'])%list.
Proof.
  intros Hp Hh pre b post H. destruct pre as [|x pre]; [discriminate|].
  injection H as Hx H. subst x. destruct pre as [|y pre].
  - exists [], u. reflexivity.
  - injection H as Hy H. subst y. destruct pre as [|z pre].
    + simpl in H. now apply Hh in H.
    + destruct (Hp _ _ _ H) as (pre' & u' & ->).
      exists (EFetch u :: EYield b0 :: pre'), u'. reflexivity.
Qed.

Lemma run_paced (cfg : config) (fuel : nat) :
  forall st tr o,
    run cfg fuel st = (tr, o) ->
    (forall pre b post,
        tr = (pre ++ EYield b :: post)%list ->
        exists pre' u', pre = (pre' ++ [EFetch u'])%list)
    /\ (forall b post, tr <> EYield b :: post).
Proof.
  assert (Hnil : (forall pre b post,
                     [] = (pre ++ EYield b :: post)%list ->
                     exists pre' u', pre = (pre' ++ [EFetch u'])%list)
                 /\ (forall b post, [] <> EYield b :: post)).
  { split; [intros [|x pre] b post H; discriminate | discriminate]. }
  induction fuel as [|fuel IH]; intros st tr o.
  - simpl. now intros [= <- _].
  - cbn [run]. destruct (next_page_url st) as [|url|v];
      try (now intros [= <- _]).
    destruct (loop_body cfg st url) as [st'|b0 [st'|e]| |e].
    + destruct (run cfg fuel st') as [tr' o'] eqn:E. intros [= <- _].
      destruct (IH _ _ _ E) as [Hp Hh].
      split; [now apply paced_fetch | discriminate].
    + destruct (run cfg fuel st') as [tr' o'] eqn:E. intros [= <- _].
      destruct (IH _ _ _ E) as [Hp Hh].
      split; [now apply paced_fetch_yield | discriminate].
    + intros [= <- _]. destruct Hnil as [Hp Hh].
      split; [now apply paced_fetch_yield | discriminate].
    + intros [= <- _]. destruct Hnil as [Hp Hh].
      split; [now apply paced_fetch | discriminate].
    + intros [= <- _]. destruct Hnil as [Hp Hh].
      split; [now apply paced_fetch | discriminate].
Qed.

(** X7.  In the trace of a traversal every batch comes right after a
    request: a batch is never the first event and never follows another
    batch, so each batch costs a request of its own. *)
Theorem each_batch_follows_its_request (cfg : config) (fuel : nat) (st : state)
        (tr : list event) (o : outcome) (pre post : list event) (batch : list json) :
  run cfg fuel st = (tr, o) ->
  tr = (pre ++ EYield batch :: post)%list ->
  exists pre' url, pre = (pre' ++ [EFetch url])%list.
Proof.
  intros Hrun Htr. destruct (run_paced cfg fuel _ _ _ Hrun) as [Hp _]. eauto.
Qed.

(** ** From one page to the next *)

Lemma yielding_pass (cfg : config) (st : state) (url : string)
      (entries : list (string * json)) (w' : World) (batch : list json) :
  get_json (world st) url = (Ok (JObj entries), w') ->
  lookup "error" entries = None ->
  filter_page cfg (JObj entries) = Ok batch ->
  batch <> [] ->
  loop_body cfg st url = Yield batch (advance st w' (JObj entries)).
Proof.
  intros Hget Herr Hf Hne. unfold loop_body. rewrite Hget. simpl.
  rewrite Herr, Hf. destruct batch; [congruence | reflexivity].
Qed.

(** X8.  After the batch of a page whose ["paging"] entry has a string
    under ["next"], the next request goes to that very string. *)
Theorem next_request_is_the_paging_cursor (cfg : config) (st : state) (url : string)
        (entries paging : list (string * json)) (w' : World)
        (batch : list json) (next : string) :
  next_page_url st = CUrl url ->
  get_json (world st) url = (Ok (JObj entries), w') ->
  lookup "error" entries = None ->
  filter_page cfg (JObj entries) = Ok batch ->
  batch <> [] ->
  lookup "paging" entries = Some (JObj paging) ->
  lookup "next" paging = Some (JStr next) ->
  forall fuel, exists tr o,
    run cfg (S (S fuel)) st = (EFetch url :: EYield batch :: EFetch next :: tr, o).
Proof.
  intros Hurl Hget Herr Hf Hne Hp Hn fuel.
  rewrite (run_unfold _ _ _ _ Hurl).
  rewrite (yielding_pass cfg st url entries w' batch Hget Herr Hf Hne).
  rewrite (advance_with_next st w' entries paging (JStr next) Hp Hn).
  cbn [cursor_of].
  destruct (run_starts_with_fetch cfg fuel
              {| next_page_url := CUrl next; last_error_url := last_error_url st;
                 last_retry_count := last_retry_count st; world := w' |}
              next eq_refl) as (tr & o & ->).
  exists tr, o. reflexivity.
Qed.

(** X9.  After the batch of a page that has no ["paging"] entry, or
    whose ["paging"] entry holds [null] under ["next"], the traversal ends
    normally without another request. *)
Theorem traversal_ends_without_next_page (cfg : config) (st : state) (url : string)
        (entries : list (string * json)) (w' : World) (batch : list json) :
  next_page_url st = CUrl url ->
  get_json (world st) url = (Ok (JObj entries), w') ->
  lookup "error" entries = None ->
  filter_page cfg (JObj entries) = Ok batch ->
  batch <> [] ->
  lookup "paging" entries = None
  \/ (exists paging,
         lookup "paging" entries = Some (JObj paging)
         /\ lookup "next" paging = Some JNull) ->
  forall fuel,
    run cfg (S (S fuel)) st = ([EFetch url; EYield batch], Exhausted).
Proof.
  intros Hurl Hget Herr Hf Hne Hp fuel.
  rewrite (run_unfold _ _ _ _ Hurl).
  rewrite (yielding_pass cfg st url entries w' batch Hget Herr Hf Hne).
  destruct Hp as [Hp|(paging & Hp & Hn)].
  - rewrite (advance_without_paging st w' entries Hp). reflexivity.
  - rewrite (advance_with_next st w' entries paging JNull Hp Hn). reflexivity.
Qed.

(** ** What is not retried *)

(** X10.  A page that is a JSON object with neither an ["error"] nor a
    ["data"] entry ends the traversal with [KeyError] on ["data"], after
    the one request. *)
Theorem page_without_data_raises (cfg : config) (st : state) (url : string)
        (entries : list (string * json)) (w' : World) :
  next_page_url st = CUrl url ->
  get_json (world st) url = (Ok (JObj entries), w') ->
  lookup "error" entries = None ->
  lookup "data" entries = None ->
  forall fuel, run cfg (S fuel) st = ([EFetch url], Failed (KeyError "data")).
Proof.
  intros Hurl Hget Herr Hd fuel. rewrite (run_unfold _ _ _ _ Hurl).
  unfold loop_body, filter_page. rewrite Hget. simpl. rewrite Herr. simpl.
  now rewrite Hd.
Qed.

(** X11.  An exception of the request itself, or of the decoding of its
    answer, is not retried: it ends the traversal after the one request,
    whatever the retry limit and the retry tracking. *)
Theorem failed_request_is_not_retried (cfg : config) (st : state) (url : string)
        (e : exn) (w' : World) :
  next_page_url st = CUrl url ->
  get_json (world st) url = (Raise e, w') ->
  forall fuel, run cfg (S fuel) st = ([EFetch url], Failed e).
Proof.
  intros Hurl Hget fuel. rewrite (run_unfold _ _ _ _ Hurl).
  unfold loop_body. now rewrite Hget.
Qed.

(** X12.  A page with an ["error"] entry is never filtered: whatever
    records it carries under ["data"], the pass yields nothing and either
    requests the same URL again or raises. *)
Theorem error_page_yields_nothing (cfg : config) (st : state) (url : string)
        (page : json) (w' : World) :
  get_json (world st) url = (Ok page, w') ->
  py_contains "error" page = Ok true ->
  (exists st', loop_body cfg st url = Retry st' /\ next_page_url st' = CUrl url)
  \/ (exists e, loop_body cfg st url = Raised e).
Proof.
  intros Hget Herr. unfold loop_body. rewrite Hget, Herr.
  destruct (same_url url (last_error_url st)).
  - destruct (last_retry_count st >=? retry_limit cfg).
    + right. destruct (py_getitem page "error"); eauto.
    + left. eexists. split; reflexivity.
  - left. eexists. split; reflexivity.
Qed.

(** ** The entry points *)

(** X13.  A minimum date that [strptime] rejects, or a maximum date that
    is not empty and that [strptime] rejects, makes the traversal raise
    before any request is made. *)
Theorem bad_bounds_raise_before_any_request (w : World) (fuel : nat)
        (seed : option string) (ad_delivery_date_min ad_delivery_date_max : string)
        (rl : Z) (e : exn) :
  strptime (JStr ad_delivery_date_min) = Raise e
  \/ ((exists a, strptime (JStr ad_delivery_date_min) = Ok a)
      /\ String.eqb ad_delivery_date_max "" = false
      /\ strptime (JStr ad_delivery_date_max) = Raise e) ->
  _get_ad_archives_from_url w fuel seed ad_delivery_date_min rl ad_delivery_date_max
  = ([], Failed e).
Proof.
  unfold _get_ad_archives_from_url, locals.
  intros [H|([a Ha] & Hne & Hb)].
  - now rewrite H.
  - rewrite Ha. cbn [bind].
    assert (He : e = ValueError).
    { revert Hb. unfold strptime.
      destruct (match_ymd ad_delivery_date_max) as [d|];
        [destruct (valid_date d)|]; try discriminate; now intros [= <-]. }
    destruct (timestamp a) as [t|e'] eqn:Et; cbn [bind].
    + now rewrite Hne, Hb.
    + apply timestamp_exn in Et. now subst.
Qed.

(** X15.  [generate_ad_archives] is the traversal seeded with the URL
    formatted from the instance, with the minimum date, the retry limit
    and the maximum date of the instance, whether the maximum date is
    empty or not; when the dates are readable its first request goes to
    that URL. *)
Theorem generate_ad_archives_starts_at_first_url (self : FbAdsLibraryTraversal.t)
        (w : World) (cfg : config) :
  locals (FbAdsLibraryTraversal.ad_delivery_date_min self)
         (FbAdsLibraryTraversal.retry_limit self)
         (FbAdsLibraryTraversal.ad_delivery_date_max self) = Ok cfg ->
  forall fuel,
    generate_ad_archives self w fuel
    = _get_ad_archives_from_url w fuel (Some (FbAdsLibraryTraversal.first_url self))
        (FbAdsLibraryTraversal.ad_delivery_date_min self)
        (FbAdsLibraryTraversal.retry_limit self)
        (FbAdsLibraryTraversal.ad_delivery_date_max self)
    /\ exists tr o,
         generate_ad_archives self w (S fuel)
         = (EFetch (FbAdsLibraryTraversal.first_url self) :: tr, o).
Proof.
  intros Hl fuel.
  assert (Heq : forall n,
             generate_ad_archives self w n
             = _get_ad_archives_from_url w n (Some (FbAdsLibraryTraversal.first_url self))
                 (FbAdsLibraryTraversal.ad_delivery_date_min self)
                 (FbAdsLibraryTraversal.retry_limit self)
                 (FbAdsLibraryTraversal.ad_delivery_date_max self)).
  { intros n. unfold generate_ad_archives.
    destruct (String.eqb_spec (FbAdsLibraryTraversal.ad_delivery_date_max self) "")
      as [->|Hne]; reflexivity. }
  split; [apply Heq|].
  rewrite Heq. unfold _get_ad_archives_from_url. rewrite Hl.
  apply run_starts_with_fetch. reflexivity.
Qed.

End Traversal.

Arguments Break {World}.
Arguments Raised {World} e.
Arguments Exhausted {World}.
Arguments Failed {World} e.

(** * Properties of the id extraction *)

(** ** Texts *)

Lemma strip_prefix_app (p s r : string) :
  strip_prefix p s = Some r <-> s = p ++ r.
Proof.
  revert s; induction p as [|a p IH]; intros s; simpl.
  - split; [intros [= ->]; reflexivity | intros ->; reflexivity].
  - destruct s as [|b s].
    + split; discriminate.
    + destruct (Ascii.eqb_spec a b) as [->|Hne].
      * rewrite IH. split; [intros ->; reflexivity | intros [= ->]; reflexivity].
      * split; [discriminate | intros [= Hab _]; congruence].
Qed.

Lemma app_assoc_string (a b c : string) : (a ++ b) ++ c = a ++ (b ++ c).
Proof. induction a as [|x a IH]; simpl; [reflexivity | now rewrite IH]. Qed.

Lemma is_substring_spec (p s : string) :
  is_substring p s = true <-> exists pre post, s = pre ++ p ++ post.
Proof.
  induction s as [|c s IH]; simpl.
  - destruct (strip_prefix p "") as [r|] eqn:E.
    + apply strip_prefix_app in E. split; [|reflexivity].
      intros _. exists "", r. exact E.
    + split; [discriminate|]. intros (pre & post & H).
      destruct pre; simpl in H.
      * apply strip_prefix_app in H. congruence.
      * discriminate.
  - destruct (strip_prefix p (String c s)) as [r|] eqn:E.
    + apply strip_prefix_app in E. split; [|reflexivity].
      intros _. exists "", r. exact E.
    + rewrite IH. split.
      * intros (pre & post & ->). exists (String c pre), post. reflexivity.
      * intros (pre & post & H). destruct pre as [|x pre]; simpl in H.
        -- apply strip_prefix_app in H. congruence.
        -- injection H as _ ->. eauto.
Qed.

Lemma digit_follows_spec (p s : string) :
  digit_follows p s = true <->
  exists d post, s = p ++ String d post /\ is_digit d = true.
Proof.
  unfold digit_follows. split.
  - destruct (strip_prefix p s) as [[|d r]|] eqn:E; try discriminate.
    apply strip_prefix_app in E. eauto.
  - intros (d & post & H & Hd). apply strip_prefix_app in H.
    rewrite H. exact Hd.
Qed.

Lemma occurs_before_digit_spec (p s : string) :
  occurs_before_digit p s = true <->
  exists pre d post, s = pre ++ p ++ String d post /\ is_digit d = true.
Proof.
  induction s as [|c s IH]; simpl; rewrite orb_true_iff, digit_follows_spec.
  - split.
    + intros [(d & post & H & Hd)|H]; [|discriminate]. exists "". eauto.
    + intros ([|x pre] & d & post & H & Hd); [|discriminate]. left. eauto.
  - rewrite IH. split.
    + intros [(d & post & H & Hd)|(pre & d & post & -> & Hd)].
      * exists "". eauto.
      * exists (String c pre), d, post. split; [reflexivity | exact Hd].
    + intros ([|x pre] & d & post & H & Hd).
      * left. eauto.
      * right. simpl in H. injection H as _ ->. eauto.
Qed.

(** An occurrence of [/?id=] before a digit is one of [?id=] too. *)
Lemma slash_occurrence (s : string) :
  occurs_before_digit "/?id=" s = true -> occurs_before_digit "?id=" s = true.
Proof.
  rewrite !occurs_before_digit_spec. intros (pre & d & post & -> & Hd).
  exists (pre ++ "/"), d, post. split; [|exact Hd].
  rewrite app_assoc_string. reflexivity.
Qed.

Lemma slash_substring (s : string) :
  occurs_before_digit "/?id=" s = true -> is_substring "/?id=" s = true.
Proof.
  rewrite occurs_before_digit_spec, is_substring_spec.
  intros (pre & d & post & -> & _). eauto.
Qed.

Lemma digit_run_prefix (s : string) : exists post, s = digit_run s ++ post.
Proof.
  induction s as [|c s [post IH]]; simpl.
  - exists "". reflexivity.
  - destruct (is_digit c).
    + exists post. simpl. now rewrite <- IH.
    + exists (String c s). reflexivity.
Qed.

Lemma match_id_here_some (s ds : string) :
  match_id_here s = Some ds ->
  digit_follows "/?id=" s = true /\ exists post, s = "/?id=" ++ ds ++ post.
Proof.
  unfold match_id_here, digit_follows.
  destruct (strip_prefix "/?id=" s) as [r|] eqn:E; [|discriminate].
  apply strip_prefix_app in E. subst s.
  destruct (digit_run_prefix r) as [post Hr].
  destruct r as [|c r]; simpl in *; [discriminate|].
  destruct (is_digit c); [|discriminate].
  intros [= <-]. split; [reflexivity|].
  exists post. simpl. now rewrite Hr at 1.
Qed.

Lemma match_id_here_none (s : string) :
  match_id_here s = None -> digit_follows "/?id=" s = false.
Proof.
  unfold match_id_here, digit_follows.
  destruct (strip_prefix "/?id=" s) as [[|c r]|]; try reflexivity.
  simpl. destruct (is_digit c); [discriminate | reflexivity].
Qed.

(** The search fails exactly on the texts with no [/?id=] before a
    digit. *)
Lemma re_search_id_none (s : string) :
  re_search_id s = None <-> occurs_before_digit "/?id=" s = false.
Proof.
  induction s as [|c s IH]; cbn [re_search_id occurs_before_digit].
  - destruct (match_id_here "") eqn:E; [discriminate E|]. now split.
  - destruct (match_id_here (String c s)) as [ds|] eqn:E.
    + apply match_id_here_some in E as [-> _]. simpl. split; discriminate.
    + apply match_id_here_none in E. rewrite E. simpl. exact IH.
Qed.

(** What the search returns stands in the text right after [/?id=]. *)
Lemma re_search_id_some (s ds : string) :
  re_search_id s = Some ds -> exists pre post, s = pre ++ "/?id=" ++ ds ++ post.
Proof.
  induction s as [|c s IH]; cbn [re_search_id].
  - destruct (match_id_here "") eqn:E; [discriminate E | discriminate].
  - destruct (match_id_here (String c s)) as [ds'|] eqn:E.
    + intros [= ->]. apply match_id_here_some in E as [_ [post ->]].
      exists "", post. reflexivity.
    + intros H. destruct (IH H) as (pre & post & ->).
      exists (String c pre), post. reflexivity.
Qed.

(** ** [get_ad_archive_id] *)

(** C8.  On a record whose [ad_snapshot_url] is
    [https://example.com/ads/library/?id=123456789] the helper returns
    [123456789]; on a record whose [ad_snapshot_url] has no [?id=] followed
    by a digit it raises (the [AttributeError] of [None.group]). *)
Theorem get_ad_archive_id_found_or_raises :
  get_ad_archive_id (snapshot "https://example.com/ads/library/?id=123456789")
  = Ok "123456789"
  /\ forall entries s,
       lookup "ad_snapshot_url" entries = Some (JStr s) ->
       occurs_before_digit "?id=" s = false ->
       get_ad_archive_id (JObj entries) = Raise AttributeError.
Proof.
  split; [reflexivity|].
  intros entries s Hurl Hno. unfold get_ad_archive_id. simpl. rewrite Hurl. simpl.
  assert (Hnone : re_search_id s = None).
  { apply re_search_id_none.
    destruct (occurs_before_digit "/?id=" s) eqn:E; [|reflexivity].
    apply slash_occurrence in E. congruence. }
  now rewrite Hnone.
Qed.

Lemma get_ad_archive_id_found_or_raises_witness :
  get_ad_archive_id (snapshot "https://example.com/ads/library/") = Raise AttributeError.
Proof.
  apply (proj2 get_ad_archive_id_found_or_raises
           [("ad_snapshot_url", JStr "https://example.com/ads/library/")]
           "https://example.com/ads/library/"); reflexivity.
Defined.

(** C9.  The helper returns digits only from behind a [/?id=]: a text in
    which no [?id=] has a [/] right before it makes the helper raise,
    whatever digits follow its [?id=], as
    [https://example.com/ads?id=123] does. *)
Theorem get_ad_archive_id_needs_slash :
  (forall entries ds,
      get_ad_archive_id (JObj entries) = Ok ds ->
      exists s pre post,
        lookup "ad_snapshot_url" entries = Some (JStr s)
        /\ s = pre ++ "/?id=" ++ ds ++ post)
  /\ (forall entries s,
         lookup "ad_snapshot_url" entries = Some (JStr s) ->
         occurs_before_digit "?id=" s = true ->
         is_substring "/?id=" s = false ->
         get_ad_archive_id (JObj entries) = Raise AttributeError)
  /\ occurs_before_digit "?id=" "https://example.com/ads?id=123" = true
  /\ get_ad_archive_id (snapshot "https://example.com/ads?id=123")
     = Raise AttributeError.
Proof.
  split; [|split; [|split; reflexivity]].
  - intros entries ds. unfold get_ad_archive_id. simpl.
    destruct (lookup "ad_snapshot_url" entries) as [[| | |s| |]|]; simpl;
      try discriminate.
    destruct (re_search_id s) as [ds'|] eqn:E; [|discriminate].
    intros [= ->]. apply re_search_id_some in E as (pre & post & E).
    exists s, pre, post. split; [reflexivity | exact E].
  - intros entries s Hurl _ Hno. unfold get_ad_archive_id. simpl.
    rewrite Hurl. simpl.
    assert (Hnone : re_search_id s = None).
    { apply re_search_id_none.
      destruct (occurs_before_digit "/?id=" s) eqn:E; [|reflexivity].
      apply slash_substring in E. congruence. }
    now rewrite Hnone.
Qed.

Lemma get_ad_archive_id_needs_slash_witness :
  get_ad_archive_id (snapshot "https://example.com/watch?id=42&next=/x")
  = Raise AttributeError.
Proof.
  apply (proj1 (proj2 get_ad_archive_id_needs_slash)
           [("ad_snapshot_url", JStr "https://example.com/watch?id=42&next=/x")]
           "https://example.com/watch?id=42&next=/x"); reflexivity.
Defined.


(** * The traversal against a scripted server, in UTC *)

(** C1, as it is stated, fails.  With the retry limit 3, a URL answered
    by an error page on 3 passes in a row and by a page of records on the
    fourth request raises nothing: the batch of the fourth answer is
    yielded and the traversal ends normally. *)
Lemma as_many_errors_as_the_limit_raise_nothing :
  error_streak scripted_get "u" 3 three_errors_then_page
  /\ _get_ad_archives_from_url scripted_get show_json 0
       three_errors_then_page 10 (Some "u") "2022-01-01" 3 ""
     = ([EFetch "u"; EFetch "u"; EFetch "u"; EFetch "u";
         EYield [ad "2022-03-01"]],
        Exhausted).
Proof.
  split; [|reflexivity].
  simpl. repeat split; exists (JObj [("message", JStr "limit reached"); ("code", JNum 613)]);
    eexists; split; reflexivity.
Qed.

Lemma retries_exhausted_after_limit_witness :
  run scripted_get show_json 0 since_2022 (3 + 1)
    {| next_page_url := CUrl "u"; last_error_url := None;
       last_retry_count := 0; world := four_errors_then_page |}
  = (repeat (EFetch "u") 4,
     Failed (Exception
               (error_message show_json
                  (JObj [("message", JStr "limit reached"); ("code", JNum 613)]) "u")))
  /\ exists tr o,
       run scripted_get show_json 0 since_2022 (3 + 1)
         {| next_page_url := CUrl "u"; last_error_url := None;
            last_retry_count := 0; world := three_errors_then_page |}
       = ((repeat (EFetch "u") 4 ++ EYield [ad "2022-03-01"] :: tr)%list, o).
Proof.
  split.
  - apply (proj1 (retries_exhausted_after_limit script scripted_get show_json 0
                    since_2022
                    {| next_page_url := CUrl "u"; last_error_url := None;
                       last_retry_count := 0; world := four_errors_then_page |}
                    "u" eq_refl eq_refl ltac:(simpl; lia))).
    + simpl. repeat split;
        exists (JObj [("message", JStr "limit reached"); ("code", JNum 613)]);
        eexists; split; reflexivity.
    + eexists; split; reflexivity.
  - apply (proj2 (retries_exhausted_after_limit script scripted_get show_json 0
                    since_2022
                    {| next_page_url := CUrl "u"; last_error_url := None;
                       last_retry_count := 0; world := three_errors_then_page |}
                    "u" eq_refl eq_refl ltac:(simpl; lia))
             3%nat (data_page [ad "2022-03-01"]) [] [ad "2022-03-01"] 0%nat).
    + simpl. lia.
    + simpl. repeat split;
        exists (JObj [("message", JStr "limit reached"); ("code", JNum 613)]);
        eexists; split; reflexivity.
    + reflexivity.
    + reflexivity.
    + reflexivity.
    + discriminate.
Defined.

Lemma empty_page_ends_traversal_witness :
  run scripted_get show_json 0 since_2022 (1 + 6)
    (initial [Ok (linked_page [ad "2022-03-01"] "v");
              Ok (data_page [ad "2021-12-31"]);
              Ok (data_page [ad "2022-05-01"])] (Some "u"))
  = ([EFetch "u"; EYield [ad "2022-03-01"]; EFetch "v"], Exhausted).
Proof.
  apply (empty_page_ends_traversal script scripted_get show_json 0 since_2022 1
           (initial [Ok (linked_page [ad "2022-03-01"] "v");
                     Ok (data_page [ad "2021-12-31"]);
                     Ok (data_page [ad "2022-05-01"])] (Some "u"))
           {| next_page_url := CUrl "v"; last_error_url := None;
              last_retry_count := 0;
              world := [Ok (data_page [ad "2021-12-31"]);
                        Ok (data_page [ad "2022-05-01"])] |}
           [EFetch "u"; EYield [ad "2022-03-01"]] "v"
           (data_page [ad "2021-12-31"]) [Ok (data_page [ad "2022-05-01"])]);
    reflexivity.
Defined.

Lemma record_without_date_never_yielded_witness :
  record_filter 0 since_2022 (JObj [("id", JStr "2")]) = Ok false
  /\ filter_page 0 since_2022
       (data_page [ad "2022-03-01"; JObj [("id", JStr "2")]; ad "2022-04-01"])
     = filter_records (record_filter 0 since_2022)
         [ad "2022-03-01"; ad "2022-04-01"]
  /\ ~ In (JObj [("id", JStr "2")]) [ad "2022-03-01"].
Proof.
  split; [|split].
  - apply (proj1 (record_without_date_never_yielded script scripted_get show_json 0
                    since_2022 [("id", JStr "2")] eq_refl)).
  - apply (proj1 (proj2 (record_without_date_never_yielded script scripted_get
                           show_json 0 since_2022 [("id", JStr "2")] eq_refl))
             (data_page [ad "2022-03-01"; JObj [("id", JStr "2")]; ad "2022-04-01"])
             [ad "2022-03-01"] [ad "2022-04-01"]).
    reflexivity.
  - apply (proj2 (proj2 (proj2 (record_without_date_never_yielded script scripted_get
                                  show_json 0 since_2022 [("id", JStr "2")] eq_refl)))
             5%nat
             (initial [Ok (data_page [ad "2022-03-01"; JObj [("id", JStr "2")]])]
                      (Some "u"))
             [EFetch "u"; EYield [ad "2022-03-01"]] Exhausted).
    + reflexivity.
    + right. left. reflexivity.
Defined.

Lemma unparseable_date_raises_witness :
  exists e,
    (e = ValueError \/ e = TypeError)
    /\ filter_page 0 since_2022 (data_page [ad "2022-03-01"; ad "2022-13-01"])
       = Raise e
    /\ forall fuel,
         run scripted_get show_json 0 since_2022 (S fuel)
           (initial [Ok (data_page [ad "2022-03-01"; ad "2022-13-01"])] (Some "u"))
         = ([EFetch "u"], Failed e).
Proof.
  apply (unparseable_date_raises script scripted_get show_json 0 since_2022
           (initial [Ok (data_page [ad "2022-03-01"; ad "2022-13-01"])] (Some "u"))
           "u" (data_page [ad "2022-03-01"; ad "2022-13-01"])
           (JArr [ad "2022-03-01"; ad "2022-13-01"]) []
           [ad "2022-03-01"; ad "2022-13-01"]
           [("id", JStr "1"); (ad_delivery_start_time, JStr "2022-13-01")]
           (JStr "2022-13-01") ValueError); try reflexivity.
  right. left. reflexivity.
Defined.

Lemma error_on_new_url_resets_tracking_witness :
  loop_body scripted_get show_json 0 since_2022
    {| next_page_url := CUrl "v"; last_error_url := Some "u";
       last_retry_count := 2; world := [Ok error_page; Ok error_page] |} "v"
  = Retry {| next_page_url := CUrl "v"; last_error_url := Some "v";
             last_retry_count := 1; world := [Ok error_page] |}
  /\ forall fuel, exists tr o,
       run scripted_get show_json 0 since_2022 (S (S fuel))
         {| next_page_url := CUrl "v"; last_error_url := Some "u";
            last_retry_count := 2; world := [Ok error_page; Ok error_page] |}
       = (EFetch "v" :: EFetch "v" :: tr, o).
Proof.
  apply (error_on_new_url_resets_tracking script scripted_get show_json 0 since_2022
           {| next_page_url := CUrl "v"; last_error_url := Some "u";
              last_retry_count := 2; world := [Ok error_page; Ok error_page] |}
           "u" "v" error_page [Ok error_page]);
    try reflexivity.
  discriminate.
Defined.

(** C7, as it is stated, fails.  A traversal from ["u"] whose first
    three requests are answered by error pages is in progress with its
    cursor on ["u"] and its counter at the limit.  If the next answer is
    one more error page, that traversal raises and yields no batch, while a
    restart from ["u"] in the same world requests ["u"] again and yields
    the batch of the page that follows. *)
Lemma restart_forgets_retry_history :
  locals 0 "2022-01-01" default_retry_limit default_ad_delivery_date_max
  = Ok since_2022
  /\ run scripted_get show_json 0 since_2022 3
       (initial (Ok error_page :: four_errors_then_page) (Some "u"))
     = ([EFetch "u"; EFetch "u"; EFetch "u"],
        Running {| next_page_url := CUrl "u"; last_error_url := Some "u";
                   last_retry_count := 3;
                   world := [Ok error_page; Ok error_page;
                             Ok (data_page [ad "2022-03-01"])] |})
  /\ in_progress 0 since_2022
       {| next_page_url := CUrl "u"; last_error_url := Some "u";
          last_retry_count := 3;
          world := [Ok error_page; Ok error_page;
                    Ok (data_page [ad "2022-03-01"])] |}
       "u" "2022-01-01"
  /\ batches (fst (run scripted_get show_json 0 since_2022 10
                     {| next_page_url := CUrl "u"; last_error_url := Some "u";
                        last_retry_count := 3;
                        world := [Ok error_page; Ok error_page;
                                  Ok (data_page [ad "2022-03-01"])] |}))
     = []
  /\ batches (fst (generate_ad_archives_from_url scripted_get show_json 0
                     [Ok error_page; Ok error_page;
                      Ok (data_page [ad "2022-03-01"])]
                     10 (Some "u") "2022-01-01"))
     = [[ad "2022-03-01"]].
Proof.
  repeat split; try reflexivity.
  eexists. split; reflexivity.
Qed.

Lemma restart_is_traversal_without_history_witness :
  generate_ad_archives_from_url scripted_get show_json 0
    three_errors_then_page 10 (Some "u") "2022-01-01"
  = run scripted_get show_json 0 since_2022 10
      {| next_page_url := CUrl "u"; last_error_url := None;
         last_retry_count := 0; world := three_errors_then_page |}.
Proof.
  apply (restart_is_traversal_without_history script scripted_get show_json 0
           since_2022
           {| next_page_url := CUrl "u"; last_error_url := None;
              last_retry_count := 0; world := three_errors_then_page |}
           "u" "2022-01-01" 10%nat); try reflexivity.
  repeat split; try reflexivity. eexists. split; reflexivity.
Defined.

(** C5 on the last page of the API.  The page has records in the window
    and a ["paging"] entry without ["next"]: its batch is yielded, and the
    resumed generator raises [KeyError] where the sequence should end. *)
Theorem paging_without_next_raises :
  _get_ad_archives_from_url scripted_get show_json 0
    [Ok (last_page [ad "2022-03-01"])] 10 (Some "u") "2022-01-01" 3 ""
  = ([EFetch "u"; EYield [ad "2022-03-01"]], Failed (KeyError "next")).
Proof. reflexivity. Qed.

(** C3 on the maximum date 1970-01-01 in UTC.  The upper bound is there
    and is the timestamp 0, which the test of line 112 takes for an absent
    bound: a record of 2022-01-01, whose timestamp 1640995200 is above the
    upper bound, is kept and yielded. *)
Theorem upper_bound_at_epoch_is_ignored :
  locals 0 "1970-01-01" 3 "1970-01-01" = Ok epoch_only
  /\ (d <- strptime (JStr "2022-01-01") ;; timestamp 0 d) = Ok 1640995200
  /\ (0 >=? 1640995200) && (1640995200 >=? 0) = false
  /\ record_filter 0 epoch_only (ad "2022-01-01") = Ok true
  /\ _get_ad_archives_from_url scripted_get show_json 0
       [Ok (data_page [ad "2022-01-01"])] 10 (Some "u") "1970-01-01" 3 "1970-01-01"
     = ([EFetch "u"; EYield [ad "2022-01-01"]], Exhausted).
Proof. repeat split; reflexivity. Qed.

(** * Further properties of the id extraction *)

Lemma digit_run_digits (s : string) : all_digits (digit_run s) = true.
Proof.
  induction s as [|c s IH]; simpl; [reflexivity|].
  destruct (is_digit c) eqn:E; simpl; [now rewrite E|reflexivity].
Qed.

Lemma digit_run_maximal (s : string) :
  exists post, s = digit_run s ++ post /\ starts_with_digit post = false.
Proof.
  induction s as [|c s (post & IH & Hp)]; simpl.
  - exists "". now split.
  - destruct (is_digit c) eqn:E.
    + exists post. simpl. split; [now rewrite <- IH | exact Hp].
    + exists (String c s). split; [reflexivity | exact E].
Qed.

Lemma digit_run_app (ds post : string) :
  all_digits ds = true -> starts_with_digit post = false ->
  digit_run (ds ++ post) = ds.
Proof.
  intros Hd Hp. induction ds as [|c ds IH]; simpl in *.
  - destruct post as [|c post]; simpl in *; [reflexivity | now rewrite Hp].
  - apply andb_true_iff in Hd as [Hc Hd]. rewrite Hc. now rewrite IH.
Qed.

Lemma match_id_here_run (s ds : string) :
  match_id_here s = Some ds ->
  ds <> "" /\ all_digits ds = true
  /\ exists post, s = "/?id=" ++ ds ++ post /\ starts_with_digit post = false.
Proof.
  unfold match_id_here.
  destruct (strip_prefix "/?id=" s) as [r|] eqn:E; [|discriminate].
  apply strip_prefix_app in E. subst s.
  pose proof (digit_run_digits r) as Hd.
  destruct (digit_run_maximal r) as (post & Hr & Hp).
  destruct (digit_run r) as [|c ds'] eqn:Er; [discriminate|].
  intros [= <-]. split; [discriminate|]. split; [exact Hd|].
  exists post. split; [|exact Hp]. now rewrite Hr at 1.
Qed.

Lemma re_search_id_run (s ds : string) :
  re_search_id s = Some ds ->
  ds <> "" /\ all_digits ds = true
  /\ exists pre post,
       s = pre ++ "/?id=" ++ ds ++ post /\ starts_with_digit post = false.
Proof.
  induction s as [|c s IH]; cbn [re_search_id].
  - destruct (match_id_here "") eqn:E; [discriminate E | discriminate].
  - destruct (match_id_here (String c s)) as [ds'|] eqn:E.
    + intros [= ->]. apply match_id_here_run in E as (Hne & Hd & post & -> & Hp).
      split; [exact Hne|]. split; [exact Hd|]. exists "", post. now split.
    + intros H. destruct (IH H) as (Hne & Hd & pre & post & -> & Hp).
      split; [exact Hne|]. split; [exact Hd|].
      exists (String c pre), post. now split.
Qed.

(** X16.  What the helper returns is never empty, is made of digits
    only, and is a whole run of digits of the text: it stands right
    after a [/?id=], and what follows it does not start with a digit. *)
Theorem get_ad_archive_id_is_a_whole_number (entries : list (string * json))
        (ds : string) :
  get_ad_archive_id (JObj entries) = Ok ds ->
  ds <> "" /\ all_digits ds = true
  /\ exists s pre post,
       lookup "ad_snapshot_url" entries = Some (JStr s)
       /\ s = pre ++ "/?id=" ++ ds ++ post
       /\ starts_with_digit post = false.
Proof.
  unfold get_ad_archive_id. simpl.
  destruct (lookup "ad_snapshot_url" entries) as [[| | |s| |]|]; simpl;
    try discriminate.
  destruct (re_search_id s) as [ds'|] eqn:E; [|discriminate].
  intros [= ->]. apply re_search_id_run in E as (Hne & Hd & pre & post & Hs & Hp).
  split; [exact Hne|]. split; [exact Hd|]. exists s, pre, post. now split.
Qed.

Lemma match_id_here_exact (ds post : string) :
  ds <> "" -> all_digits ds = true -> starts_with_digit post = false ->
  match_id_here ("/?id=" ++ ds ++ post) = Some ds.
Proof.
  intros Hne Hd Hp. unfold match_id_here. simpl.
  rewrite (digit_run_app _ _ Hd Hp). destruct ds; [congruence | reflexivity].
Qed.

Lemma re_search_id_skips (pre rest : string) :
  has_char "?" pre = false ->
  re_search_id (pre ++ "/?id=" ++ rest) = re_search_id ("/?id=" ++ rest).
Proof.
  induction pre as [|c pre IH]; [reflexivity|].
  intros H. cbn [has_char] in H. apply orb_false_iff in H as [Hc Hpre].
  change (String c pre ++ "/?id=" ++ rest)
    with (String c (pre ++ "/?id=" ++ rest)).
  cbn [re_search_id].
  assert (Hm : match_id_here (String c (pre ++ "/?id=" ++ rest)) = None).
  { unfold match_id_here. cbn [strip_prefix].
    destruct (Ascii.eqb "/" c); [|reflexivity].
    destruct pre as [|c' pre]; [reflexivity|].
    change (String c' pre ++ "/?id=" ++ rest)
      with (String c' (pre ++ "/?id=" ++ rest)).
    cbn [strip_prefix]. cbn [has_char] in Hpre.
    apply orb_false_iff in Hpre as [Hc' _]. now rewrite Hc'. }
  rewrite Hm. now apply IH.
Qed.

Lemma re_search_id_here (s ds : string) :
  match_id_here s = Some ds -> re_search_id s = Some ds.
Proof. intros H. destruct s; cbn [re_search_id]; now rewrite H. Qed.

(** X17.  From a text made of a part without [?], then [/?id=], then a
    number, then anything that does not start with a digit, the helper
    returns that number: the first id of the text, whatever comes after
    it. *)
Theorem get_ad_archive_id_returns_the_first_id (entries : list (string * json))
        (pre ds post : string) :
  lookup "ad_snapshot_url" entries = Some (JStr (pre ++ "/?id=" ++ ds ++ post)) ->
  has_char "?" pre = false ->
  ds <> "" ->
  all_digits ds = true ->
  starts_with_digit post = false ->
  get_ad_archive_id (JObj entries) = Ok ds.
Proof.
  intros Hurl Hpre Hne Hd Hp. unfold get_ad_archive_id, py_getitem.
  rewrite Hurl. cbn [bind].
  rewrite (re_search_id_skips pre (ds ++ post) Hpre).
  now rewrite (re_search_id_here _ _ (match_id_here_exact ds post Hne Hd Hp)).
Qed.

(** X18.  On a record without [ad_snapshot_url] the helper raises
    [KeyError]; on a record whose [ad_snapshot_url] is not a string, and
    on a value that is not a JSON object, it raises [TypeError]. *)
Theorem get_ad_archive_id_on_other_input (data : json) :
  (forall entries,
      data = JObj entries -> lookup "ad_snapshot_url" entries = None ->
      get_ad_archive_id data = Raise (KeyError "ad_snapshot_url"))
  /\ (forall entries v,
         data = JObj entries -> lookup "ad_snapshot_url" entries = Some v ->
         (forall s, v <> JStr s) ->
         get_ad_archive_id data = Raise TypeError)
  /\ ((forall entries, data <> JObj entries) ->
      get_ad_archive_id data = Raise TypeError).
Proof.
  unfold get_ad_archive_id. repeat split.
  - intros entries -> H. simpl. now rewrite H.
  - intros entries v -> H Hv. simpl. rewrite H. simpl.
    destruct v; try reflexivity. now destruct (Hv s).
  - intros H. destruct data; try reflexivity. now destruct (H entries).
Qed.

(** * The calendar and the window *)

Lemma days_before_year_succ (y : Z) :
  days_before_year (y + 1)
  = days_before_year y + (if is_leap y then 366 else 365).
Proof.
  unfold days_before_year, is_leap. cbv zeta.
  replace (y + 1 - 1) with y by lia.
  destruct (Z.eqb_spec (y mod 4) 0), (Z.eqb_spec (y mod 100) 0),
    (Z.eqb_spec (y mod 400) 0); cbn [andb orb negb];
    Z.div_mod_to_equations; lia.
Qed.

Lemma days_before_year_mono (y y' : Z) :
  y <= y' -> days_before_year y <= days_before_year y'.
Proof.
  intros H. replace y' with (y + Z.of_nat (Z.to_nat (y' - y))) by lia.
  generalize (Z.to_nat (y' - y)) as k. intros k. induction k as [|k IH].
  - replace (y + Z.of_nat 0) with y by lia. lia.
  - replace (y + Z.of_nat (S k)) with (y + Z.of_nat k + 1) by lia.
    rewrite days_before_year_succ. destruct (is_leap _); lia.
Qed.

Lemma month_cases (m : Z) :
  1 <= m <= 12 ->
  m = 1 \/ m = 2 \/ m = 3 \/ m = 4 \/ m = 5 \/ m = 6
  \/ m = 7 \/ m = 8 \/ m = 9 \/ m = 10 \/ m = 11 \/ m = 12.
Proof. lia. Qed.

Ltac table_values :=
  repeat match goal with
         | |- context [nth ?n ?l ?d] =>
             let v := eval vm_compute in (nth n l d) in
             change (nth n l d) with v
         end.

Lemma day_of_year_bounds (y m d : Z) :
  1 <= m <= 12 -> 1 <= d <= days_in_month y m ->
  1 <= days_before_month y m + d <= (if is_leap y then 366 else 365).
Proof.
  intros Hm. unfold days_in_month, days_before_month.
  destruct (is_leap y);
    destruct (month_cases m Hm) as [->|[->|[->|[->|[->|[->|[->|[->|[->|[->|[->| ->]]]]]]]]]]];
    table_values; cbn -[Z.add]; lia.
Qed.

Lemma months_in_order (y m m' d : Z) :
  1 <= m -> m < m' -> m' <= 12 -> d <= days_in_month y m ->
  days_before_month y m + d <= days_before_month y m'.
Proof.
  intros H1 H2 H3. unfold days_in_month, days_before_month.
  assert (Hm : 1 <= m <= 12) by lia. assert (Hm' : 1 <= m' <= 12) by lia.
  destruct (is_leap y);
    destruct (month_cases m Hm) as [->|[->|[->|[->|[->|[->|[->|[->|[->|[->|[->| ->]]]]]]]]]]];
    destruct (month_cases m' Hm') as [->|[->|[->|[->|[->|[->|[->|[->|[->|[->|[->| ->]]]]]]]]]]];
    table_values; cbn -[Z.add]; lia.
Qed.

Lemma valid_date_bounds (d : date) :
  valid_date d = true ->
  1 <= year d <= 9999 /\ 1 <= month d <= 12
  /\ 1 <= day d <= days_in_month (year d) (month d).
Proof.
  unfold valid_date. rewrite !andb_true_iff, !Z.leb_le. lia.
Qed.

(** The ordinal of a day grows with the calendar. *)
Lemma ymd2ord_order (a b : date) :
  valid_date a = true -> valid_date b = true ->
  (ymd2ord (year a) (month a) (day a) <=? ymd2ord (year b) (month b) (day b))
  = date_leb a b.
Proof.
  intros Ha Hb. apply valid_date_bounds in Ha as (Hya & Hma & Hda).
  apply valid_date_bounds in Hb as (Hyb & Hmb & Hdb).
  pose proof (day_of_year_bounds _ _ _ Hma Hda) as Ba.
  pose proof (day_of_year_bounds _ _ _ Hmb Hdb) as Bb.
  unfold date_leb, ymd2ord.
  destruct (Z.ltb_spec (year a) (year b)) as [Hy|Hy]; simpl.
  - apply Z.leb_le.
    pose proof (days_before_year_mono (year a + 1) (year b) ltac:(lia)) as Hm.
    rewrite days_before_year_succ in Hm. destruct (is_leap (year a)); lia.
  - destruct (Z.eqb_spec (year a) (year b)) as [Ey|Ey]; simpl.
    + rewrite Ey in *.
      destruct (Z.ltb_spec (month a) (month b)) as [Hm|Hm]; simpl.
      * apply Z.leb_le.
        pose proof (months_in_order (year b) (month a) (month b) (day a)
                      ltac:(lia) Hm ltac:(lia) ltac:(lia)). lia.
      * destruct (Z.eqb_spec (month a) (month b)) as [Em|Em]; simpl.
        -- rewrite Em. destruct (Z.leb_spec (day a) (day b));
             [apply Z.leb_le | apply Z.leb_gt]; lia.
        -- apply Z.leb_gt.
           pose proof (months_in_order (year b) (month b) (month a) (day b)
                         ltac:(lia) ltac:(lia) ltac:(lia) ltac:(lia)). lia.
    + apply Z.leb_gt.
      pose proof (days_before_year_mono (year b + 1) (year a) ltac:(lia)) as Hm.
      rewrite days_before_year_succ in Hm. destruct (is_leap (year b)); lia.
Qed.

Lemma timestamp_order (utcoffset : Z) (a b : date) (ta tb : Z) :
  valid_date a = true -> valid_date b = true ->
  timestamp utcoffset a = Ok ta -> timestamp utcoffset b = Ok tb ->
  (tb >=? ta) = date_leb a b.
Proof.
  intros Ha Hb Hta Htb. rewrite <- (ymd2ord_order a b Ha Hb).
  apply timestamp_value in Hta as [-> _]. apply timestamp_value in Htb as [-> _].
  rewrite Z.geb_leb.
  destruct (Z.leb_spec (ymd2ord (year a) (month a) (day a))
                       (ymd2ord (year b) (month b) (day b)));
    [apply Z.leb_le | apply Z.leb_gt]; lia.
Qed.

Lemma strptime_valid (v : json) (d : date) :
  strptime v = Ok d -> valid_date d = true.
Proof.
  unfold strptime. destruct v; try discriminate.
  destruct (match_ymd s) as [d'|]; [|discriminate].
  destruct (valid_date d') eqn:E; [|discriminate]. now intros [= <-].
Qed.

(** The ordinals of the days of the calendar, and the only day whose
    ordinal is 1. *)
Lemma ymd2ord_bounds (d : date) :
  valid_date d = true ->
  1 <= ymd2ord (year d) (month d) (day d) <= 3652059
  /\ (ymd2ord (year d) (month d) (day d) = 1 -> d = first_day).
Proof.
  intros Hd. pose proof (valid_date_bounds d Hd) as (Hy & Hm & Hday).
  assert (Hf : valid_date first_day = true) by reflexivity.
  assert (Hl : valid_date last_day = true) by reflexivity.
  pose proof (ymd2ord_order first_day d Hf Hd) as H1.
  pose proof (ymd2ord_order d last_day Hd Hl) as H2.
  pose proof (ymd2ord_order d first_day Hd Hf) as H3.
  change (ymd2ord (year first_day) (month first_day) (day first_day)) with 1 in *.
  change (ymd2ord (year last_day) (month last_day) (day last_day))
    with 3652059 in *.
  assert (E1 : date_leb first_day d = true).
  { unfold date_leb, first_day. cbn [year month day].
    destruct (Z.ltb_spec 1 (year d)); [reflexivity|].
    destruct (Z.eqb_spec 1 (year d)); [|lia]. cbn [orb andb].
    destruct (Z.ltb_spec 1 (month d)); [reflexivity|].
    destruct (Z.eqb_spec 1 (month d)); [|lia]. cbn [orb andb].
    apply Z.leb_le. lia. }
  assert (E2 : date_leb d last_day = true).
  { pose proof (day_of_year_bounds _ _ _ Hm Hday) as _.
    assert (Hd31 : day d <= 31).
    { revert Hday. unfold days_in_month.
      destruct (is_leap (year d));
        destruct (month_cases (month d) Hm)
          as [->|[->|[->|[->|[->|[->|[->|[->|[->|[->|[->| ->]]]]]]]]]]];
        table_values; cbn -[Z.add]; lia. }
    unfold date_leb, last_day. cbn [year month day].
    destruct (Z.ltb_spec (year d) 9999); [reflexivity|].
    destruct (Z.eqb_spec (year d) 9999); [|lia]. cbn [orb andb].
    destruct (Z.ltb_spec (month d) 12); [reflexivity|].
    destruct (Z.eqb_spec (month d) 12); [|lia]. cbn [orb andb].
    apply Z.leb_le. lia. }
  rewrite E1 in H1. rewrite E2 in H2. apply Z.leb_le in H1, H2.
  split; [lia|]. intros Hone. rewrite Hone in H3. cbn [Z.leb Z.compare] in H3.
  symmetry in H3. unfold date_leb, first_day in H3. cbn [year month day] in H3.
  destruct (Z.ltb_spec (year d) 1); [lia|].
  destruct (Z.eqb_spec (year d) 1) as [Ey|]; [|discriminate]. cbn [orb andb] in H3.
  destruct (Z.ltb_spec (month d) 1); [lia|].
  destruct (Z.eqb_spec (month d) 1) as [Em|]; [|discriminate]. cbn [orb andb] in H3.
  apply Z.leb_le in H3. destruct d as [y m dd]. cbn [year month day] in *.
  unfold first_day. f_equal; lia.
Qed.

(** In a time zone less than a day away from UTC, every day of the
    calendar but the first has a timestamp. *)
Lemma timestamp_midnight (utcoffset : Z) (d : date) :
  -86400 < utcoffset < 86400 ->
  valid_date d = true ->
  d <> first_day ->
  timestamp utcoffset d
  = Ok ((ymd2ord (year d) (month d) (day d) - 719163) * 86400 - utcoffset).
Proof.
  intros Hoff Hd Hne. destruct (ymd2ord_bounds d Hd) as [Hb Hone].
  assert (Hmin : min_seconds = -62135596800) by reflexivity.
  assert (Hmax : max_seconds = 253402300799) by reflexivity.
  assert (Hfold : max_fold_seconds = 86400) by reflexivity.
  assert (H2 : 2 <= ymd2ord (year d) (month d) (day d)).
  { destruct (Z.eq_dec (ymd2ord (year d) (month d) (day d)) 1) as [E|E];
      [now apply Hone in E | lia]. }
  apply timestamp_in_range; lia.
Qed.

(** X14.  With the time zone at a fixed offset of less than a day, the
    window is a window of calendar days.  A record with a readable date
    makes the filter raise [ValueError] when its day is the first day of
    the calendar, which has no timestamp.  Any other record with a
    readable date is kept, when there is no maximum date, exactly if its
    day is the minimum day or a later one; and when there is a maximum
    date whose timestamp is not zero, exactly if its day is moreover the
    maximum day or an earlier one. *)
Theorem window_is_a_window_of_days (utcoffset : Z) (cfg : config) (lo d : date)
        (entries : list (string * json)) (v : json) :
  -86400 < utcoffset < 86400 ->
  valid_date lo = true ->
  timestamp utcoffset lo = Ok (start_time_cutoff_after cfg) ->
  lookup ad_delivery_start_time entries = Some v ->
  strptime v = Ok d ->
  (d = first_day ->
   record_filter utcoffset cfg (JObj entries) = Raise ValueError)
  /\ (d <> first_day ->
      (start_time_cutoff_before cfg = NoCutoff ->
       record_filter utcoffset cfg (JObj entries) = Ok (date_leb lo d))
      /\ (forall hi thi,
             valid_date hi = true ->
             timestamp utcoffset hi = Ok thi ->
             start_time_cutoff_before cfg = Cutoff thi ->
             thi <> 0 ->
             record_filter utcoffset cfg (JObj entries)
             = Ok (date_leb d hi && date_leb lo d))).
Proof.
  intros Hoff Hlo Ha Hv Hd. pose proof (strptime_valid _ _ Hd) as Hvd. split.
  - intros ->.
    apply (record_filter_undated utcoffset cfg entries v first_day ValueError Hv Hd).
    now apply timestamp_first_day.
  - intros Hne. pose proof (timestamp_midnight utcoffset d Hoff Hvd Hne) as Ht.
    rewrite (record_filter_dated utcoffset cfg entries v d _ Hv Hd Ht). split.
    + intros ->. now rewrite (timestamp_order utcoffset lo d _ _ Hlo Hvd Ha Ht).
    + intros hi thi Hhi Hthi -> Hnz.
      destruct (Z.eqb_spec thi 0); [contradiction|].
      rewrite (timestamp_order utcoffset d hi _ _ Hvd Hhi Ht Hthi).
      now rewrite (timestamp_order utcoffset lo d _ _ Hlo Hvd Ha Ht).
Qed.

(** * The further properties against the scripted server *)

Lemma batch_is_ordered_selection_witness :
  exists pre' url n st1 page w data items,
    [EFetch "u"; EYield [ad "2022-03-01"]; EFetch "v"]
    = (pre' ++ [EFetch url])%list
    /\ run scripted_get show_json 0 since_2022 n
         (initial [Ok (linked_page [ad "2022-03-01"] "v");
                   Ok (data_page [ad "2022-02-01"; ad "2021-03-01"; ad "2022-01-15"])]
                  (Some "u"))
       = (pre', Running st1)
    /\ next_page_url st1 = CUrl url
    /\ scripted_get (world st1) url = (Ok page, w)
    /\ py_contains "error" page = Ok false
    /\ py_getitem page "data" = Ok data
    /\ py_iter data = Ok items
    /\ [ad "2022-02-01"; ad "2022-01-15"] = List.filter (kept 0 since_2022) items.
Proof.
  apply (proj2 (batch_is_ordered_selection script scripted_get show_json 0 since_2022)
           5%nat
           (initial [Ok (linked_page [ad "2022-03-01"] "v");
                     Ok (data_page [ad "2022-02-01"; ad "2021-03-01"; ad "2022-01-15"])]
                    (Some "u"))
           [EFetch "u"; EYield [ad "2022-03-01"]; EFetch "v";
            EYield [ad "2022-02-01"; ad "2022-01-15"]]
           Exhausted
           [EFetch "u"; EYield [ad "2022-03-01"]; EFetch "v"]
           [ad "2022-02-01"; ad "2022-01-15"] []); reflexivity.
Defined.

Lemma batches_are_never_empty_witness : [ad "2022-03-01"] <> [].
Proof.
  apply (batches_are_never_empty script scripted_get show_json 0 since_2022 5
           (initial [Ok (data_page [ad "2022-03-01"; ad "2021-03-01"])] (Some "u"))
           [EFetch "u"; EYield [ad "2022-03-01"]] Exhausted [ad "2022-03-01"]).
  - reflexivity.
  - right. left. reflexivity.
Defined.

Lemma next_returns_within_limit_witness :
  exists n,
    (1 <= n <= Z.to_nat (Z.max (retry_limit since_2022) 1) + 1)%nat
    /\ returns_after scripted_get show_json 0 since_2022
         (initial four_errors_then_page (Some "u")) "u" n.
Proof.
  apply (next_returns_within_limit script scripted_get show_json 0 since_2022
           (initial four_errors_then_page (Some "u")) "u").
  - reflexivity.
  - simpl. lia.
Defined.

Lemma tracking_stays_consistent_witness :
  tracking_ok since_2022
    {| next_page_url := CUrl "u"; last_error_url := Some "u";
       last_retry_count := 3;
       world := [Ok error_page; Ok (data_page [ad "2022-03-01"])] |}.
Proof.
  apply (tracking_stays_consistent script scripted_get show_json 0 since_2022
           four_errors_then_page (Some "u") 3
           [EFetch "u"; EFetch "u"; EFetch "u"]).
  reflexivity.
Defined.

Lemma failing_url_is_requested_twice_witness :
  run scripted_get show_json 0
    {| retry_limit := 0; start_time_cutoff_after := 1640995200;
       start_time_cutoff_before := NoCutoff |}
    (S (S 3)) (initial four_errors_then_page (Some "u"))
  = ([EFetch "u"; EFetch "u"],
     Failed (Exception
               (error_message show_json
                  (JObj [("message", JStr "limit reached"); ("code", JNum 613)]) "u"))).
Proof.
  apply (failing_url_is_requested_twice script scripted_get show_json 0
           {| retry_limit := 0; start_time_cutoff_after := 1640995200;
              start_time_cutoff_before := NoCutoff |}
           (initial four_errors_then_page (Some "u")) "u"
           (JObj [("message", JStr "limit reached"); ("code", JNum 613)])
           (JObj [("message", JStr "limit reached"); ("code", JNum 613)])).
  - reflexivity.
  - reflexivity.
  - simpl. lia.
  - eexists. split; reflexivity.
  - eexists. split; reflexivity.
Defined.

Lemma success_keeps_tracking_witness :
  last_error_url
    {| next_page_url := CUrl "w"; last_error_url := Some "u";
       last_retry_count := 2; world := @nil (result json) |}
  = Some "u"
  /\ last_retry_count
       {| next_page_url := CUrl "w"; last_error_url := Some "u";
          last_retry_count := 2; world := @nil (result json) |}
     = 2.
Proof.
  apply (success_keeps_tracking script scripted_get show_json 0 since_2022
           {| next_page_url := CUrl "v"; last_error_url := Some "u";
              last_retry_count := 2;
              world := [Ok (linked_page [ad "2022-03-01"] "w")] |}
           {| next_page_url := CUrl "w"; last_error_url := Some "u";
              last_retry_count := 2; world := [] |}
           "v" [ad "2022-03-01"]).
  reflexivity.
Defined.

Lemma each_batch_follows_its_request_witness :
  exists pre' url,
    [EFetch "u"; EYield [ad "2022-03-01"]; EFetch "v"]
    = (pre' ++ [EFetch url])%list.
Proof.
  apply (each_batch_follows_its_request script scripted_get show_json 0 since_2022 5
           (initial [Ok (linked_page [ad "2022-03-01"] "v");
                     Ok (data_page [ad "2022-02-01"])] (Some "u"))
           [EFetch "u"; EYield [ad "2022-03-01"]; EFetch "v";
            EYield [ad "2022-02-01"]]
           Exhausted
           [EFetch "u"; EYield [ad "2022-03-01"]; EFetch "v"] []
           [ad "2022-02-01"]); reflexivity.
Defined.

Lemma next_request_is_the_paging_cursor_witness :
  exists tr o,
    run scripted_get show_json 0 since_2022 (S (S 3))
      (initial [Ok (linked_page [ad "2022-03-01"] "https://graph.facebook.com/next")]
               (Some "u"))
    = (EFetch "u" :: EYield [ad "2022-03-01"]
         :: EFetch "https://graph.facebook.com/next" :: tr, o).
Proof.
  refine (next_request_is_the_paging_cursor script scripted_get show_json 0 since_2022
           (initial [Ok (linked_page [ad "2022-03-01"] "https://graph.facebook.com/next")]
                    (Some "u"))
           "u"
           [("data", JArr [ad "2022-03-01"]);
            ("paging", JObj [("next", JStr "https://graph.facebook.com/next")])]
           [("next", JStr "https://graph.facebook.com/next")]
           [] [ad "2022-03-01"] "https://graph.facebook.com/next"
           _ _ _ _ _ _ _ 3%nat);
    try reflexivity.
  discriminate.
Defined.

Lemma traversal_ends_without_next_page_witness :
    run scripted_get show_json 0 since_2022 (S (S 3))
      (initial [Ok (data_page [ad "2022-03-01"]); Ok (data_page [ad "2022-02-01"])]
               (Some "u"))
    = ([EFetch "u"; EYield [ad "2022-03-01"]], Exhausted).
Proof.
  refine (traversal_ends_without_next_page script scripted_get show_json 0 since_2022
           (initial [Ok (data_page [ad "2022-03-01"]); Ok (data_page [ad "2022-02-01"])]
                    (Some "u"))
           "u" [("data", JArr [ad "2022-03-01"])]
           [Ok (data_page [ad "2022-02-01"])] [ad "2022-03-01"]
           _ _ _ _ _ _ 3%nat);
    try reflexivity.
  - discriminate.
  - left. reflexivity.
Defined.

Lemma page_without_data_raises_witness :
    run scripted_get show_json 0 since_2022 (S 3)
      (initial [Ok (JObj [("paging", JObj [])])] (Some "u"))
    = ([EFetch "u"], Failed (KeyError "data")).
Proof.
  refine (page_without_data_raises script scripted_get show_json 0 since_2022
           (initial [Ok (JObj [("paging", JObj [])])] (Some "u"))
           "u" [("paging", JObj [])] [] _ _ _ _ 3%nat); reflexivity.
Defined.

Lemma failed_request_is_not_retried_witness :
    run scripted_get show_json 0 since_2022 (S 3)
      (initial [Raise RequestError; Ok (data_page [ad "2022-03-01"])] (Some "u"))
    = ([EFetch "u"], Failed RequestError).
Proof.
  refine (failed_request_is_not_retried script scripted_get show_json 0 since_2022
           (initial [Raise RequestError; Ok (data_page [ad "2022-03-01"])] (Some "u"))
           "u" RequestError [Ok (data_page [ad "2022-03-01"])] _ _ 3%nat);
    reflexivity.
Defined.

Lemma error_page_yields_nothing_witness :
  (exists st',
      loop_body scripted_get show_json 0 since_2022
        (initial [Ok (JObj [("error", JObj []); ("data", JArr [ad "2022-03-01"])])]
                 (Some "u")) "u"
      = Retry st'
      /\ next_page_url st' = CUrl "u")
  \/ (exists e,
         loop_body scripted_get show_json 0 since_2022
           (initial [Ok (JObj [("error", JObj []); ("data", JArr [ad "2022-03-01"])])]
                    (Some "u")) "u"
         = Raised e).
Proof.
  apply (error_page_yields_nothing script scripted_get show_json 0 since_2022
           (initial [Ok (JObj [("error", JObj []); ("data", JArr [ad "2022-03-01"])])]
                    (Some "u"))
           "u" (JObj [("error", JObj []); ("data", JArr [ad "2022-03-01"])]) []);
    reflexivity.
Defined.

Lemma bad_bounds_raise_before_any_request_witness :
  _get_ad_archives_from_url scripted_get show_json 0
    [Ok (data_page [ad "2022-03-01"])] 5 (Some "u") "2022-01-01" 3 "2022-02-30"
  = ([], Failed ValueError).
Proof.
  apply (bad_bounds_raise_before_any_request script scripted_get show_json 0
           [Ok (data_page [ad "2022-03-01"])] 5 (Some "u")
           "2022-01-01" "2022-02-30" 3 ValueError).
  right. split; [eexists; reflexivity|]. split; reflexivity.
Defined.

Lemma generate_ad_archives_starts_at_first_url_witness :
  exists tr o,
    generate_ad_archives scripted_get show_json 0
      (FbAdsLibraryTraversal.__init__ "TOKEN" "id,ad_snapshot_url" "shoes"
         FbAdsLibraryTraversal.default_country
         FbAdsLibraryTraversal.default_search_page_ids
         FbAdsLibraryTraversal.default_ad_active_status
         default_ad_delivery_date_min default_ad_delivery_date_max
         FbAdsLibraryTraversal.default_page_limit None default_retry_limit)
      [Ok (data_page [ad "2022-03-01"])] (S 4)
    = (EFetch ("https://graph.facebook.com/v14.0/ads_archive?access_token=TOKEN"
               ++ "&fields=id,ad_snapshot_url&search_terms=shoes"
               ++ "&ad_reached_countries=TW&search_page_ids="
               ++ "&ad_active_status=ALL&limit=500") :: tr, o).
Proof.
  apply (proj2 (generate_ad_archives_starts_at_first_url script scripted_get
                  show_json 0
                  (FbAdsLibraryTraversal.__init__ "TOKEN" "id,ad_snapshot_url" "shoes"
                     FbAdsLibraryTraversal.default_country
                     FbAdsLibraryTraversal.default_search_page_ids
                     FbAdsLibraryTraversal.default_ad_active_status
                     default_ad_delivery_date_min default_ad_delivery_date_max
                     FbAdsLibraryTraversal.default_page_limit None default_retry_limit)
                  [Ok (data_page [ad "2022-03-01"])] since_2022 eq_refl 4%nat)).
Defined.

Lemma window_is_a_window_of_days_witness :
  record_filter 28800
    {| retry_limit := 3;
       start_time_cutoff_after := 1640966400;
       start_time_cutoff_before := Cutoff 1643558400 |}
    (ad "2022-02-01")
  = Ok (date_leb {| year := 2022; month := 2; day := 1 |}
                 {| year := 2022; month := 1; day := 31 |}
        && date_leb {| year := 2022; month := 1; day := 1 |}
                    {| year := 2022; month := 2; day := 1 |})
  /\ record_filter 28800
       {| retry_limit := 3;
          start_time_cutoff_after := 1640966400;
          start_time_cutoff_before := Cutoff 1643558400 |}
       (ad "0001-01-01")
     = Raise ValueError.
Proof.
  split.
  - refine (proj2 (proj2 (window_is_a_window_of_days 28800
                            {| retry_limit := 3;
                               start_time_cutoff_after := 1640966400;
                               start_time_cutoff_before := Cutoff 1643558400 |}
                            {| year := 2022; month := 1; day := 1 |}
                            {| year := 2022; month := 2; day := 1 |}
                            [("id", JStr "1");
                             (ad_delivery_start_time, JStr "2022-02-01")]
                            (JStr "2022-02-01") _ eq_refl eq_refl eq_refl eq_refl) _)
              {| year := 2022; month := 1; day := 31 |} 1643558400
              eq_refl eq_refl eq_refl _).
    + lia.
    + discriminate.
    + discriminate.
  - refine (proj1 (window_is_a_window_of_days 28800
                     {| retry_limit := 3;
                        start_time_cutoff_after := 1640966400;
                        start_time_cutoff_before := Cutoff 1643558400 |}
                     {| year := 2022; month := 1; day := 1 |}
                     first_day
                     [("id", JStr "1");
                      (ad_delivery_start_time, JStr "0001-01-01")]
                     (JStr "0001-01-01") _ eq_refl eq_refl eq_refl eq_refl)
              eq_refl).
    lia.
Defined.

Lemma get_ad_archive_id_is_a_whole_number_witness :
  "123456789" <> ""
  /\ all_digits "123456789" = true
  /\ exists s pre post,
       lookup "ad_snapshot_url"
         [("ad_snapshot_url", JStr "https://example.com/ads/library/?id=123456789&x=1")]
       = Some (JStr s)
       /\ s = pre ++ "/?id=" ++ "123456789" ++ post
       /\ starts_with_digit post = false.
Proof.
  apply (get_ad_archive_id_is_a_whole_number
           [("ad_snapshot_url", JStr "https://example.com/ads/library/?id=123456789&x=1")]
           "123456789").
  reflexivity.
Defined.

Lemma get_ad_archive_id_returns_the_first_id_witness :
  get_ad_archive_id
    (snapshot ("https://example.com/ads/library" ++ "/?id=" ++ "42" ++ "&next=/?id=7"))
  = Ok "42".
Proof.
  apply (get_ad_archive_id_returns_the_first_id
           [("ad_snapshot_url",
             JStr ("https://example.com/ads/library" ++ "/?id=" ++ "42" ++ "&next=/?id=7"))]
           "https://example.com/ads/library" "42" "&next=/?id=7");
    try reflexivity.
  discriminate.
Defined.

Lemma get_ad_archive_id_on_other_input_witness :
  get_ad_archive_id (JObj [("id", JStr "1")]) = Raise (KeyError "ad_snapshot_url")
  /\ get_ad_archive_id (JObj [("ad_snapshot_url", JNull)]) = Raise TypeError
  /\ get_ad_archive_id (JArr []) = Raise TypeError.
Proof.
  split; [|split].
  - apply (proj1 (get_ad_archive_id_on_other_input (JObj [("id", JStr "1")]))
             [("id", JStr "1")]); reflexivity.
  - apply (proj1 (proj2 (get_ad_archive_id_on_other_input
                           (JObj [("ad_snapshot_url", JNull)])))
             [("ad_snapshot_url", JNull)] JNull); try reflexivity.
    discriminate.
  - apply (proj2 (proj2 (get_ad_archive_id_on_other_input (JArr [])))).
    discriminate.
Defined.
